(** * ICP registration on tensors: Registration.cpp

    A shallow embedding of
    [cpp/open3d/t/pipelines/registration/Registration.cpp]: the two
    correspondence searches, the wrapper that selects between them, the
    public [EvaluateRegistration] and the [RegistrationICP] loop.

    - 32-bit and 64-bit IEEE 754 numbers are [spec_float] values, computed
      with the executable operations of [SpecFloat] at precision 24/53.
    - A fatal [LogError] or a failed [Assert...] is an [Outcome] of [Fatal];
      calls to the collaborators of the file (nearest-neighbour index,
      estimator, in-place transform) are recorded in a trace, so that what a
      run did, and in which order, is a value one can state theorems about. *)

From Stdlib Require Import String ZArith List Bool Lia QArith.
From Stdlib Require Import Floats.SpecFloat.
Import ListNotations.
Close Scope Q_scope.

Set Implicit Arguments.

(* ================================================================= *)
(** ** IEEE 754 numbers *)

(** [float] and [float_t] of the source: binary32. *)
Module F32.
Definition prec : Z := 24.
Definition emax : Z := 128.
Definition t := spec_float.
Definition zero : t := S754_zero false.
(** [(float)n] for an integer [n]. *)
Definition of_Z (n : Z) : t := binary_normalize prec emax n 0 false.
Definition add : t -> t -> t := SFadd prec emax.
Definition div : t -> t -> t := SFdiv prec emax.
Definition sqrt : t -> t := SFsqrt prec emax.
Definition leb : t -> t -> bool := SFleb.
End F32.

(** [double] of the source: binary64. *)
Module F64.
Definition prec : Z := 53.
Definition emax : Z := 1024.
Definition t := spec_float.
Definition zero : t := S754_zero false.
Definition of_Z (n : Z) : t := binary_normalize prec emax n 0 false.
Definition mul : t -> t -> t := SFmul prec emax.
Definition sub : t -> t -> t := SFsub prec emax.
Definition abs : t -> t := SFabs.
Definition ltb : t -> t -> bool := SFltb.
Definition leb : t -> t -> bool := SFleb.
(** The implicit conversion of a [float] to a [double]: exact. *)
Definition of_F32 (x : F32.t) : t :=
  match x with
  | S754_finite s m e =>
      binary_normalize prec emax (if s then Zneg m else Zpos m) e s
  | _ => x
  end.
(** The conversion of a [double] scalar to a [float]: rounds to nearest. *)
Definition to_F32 (x : t) : F32.t :=
  match x with
  | S754_finite s m e =>
      binary_normalize F32.prec F32.emax (if s then Zneg m else Zpos m) e s
  | _ => x
  end.
End F64.

(* ================================================================= *)
(** ** Devices, element types, tensors, point clouds *)

Inductive DeviceType := CPU | CUDA.

Record Device := { device_type : DeviceType; device_id : Z }.

Definition DeviceType_eqb (a b : DeviceType) : bool :=
  match a, b with
  | CPU, CPU | CUDA, CUDA => true
  | _, _ => false
  end.

Definition Device_eqb (a b : Device) : bool :=
  DeviceType_eqb (device_type a) (device_type b)
  && (device_id a =? device_id b)%Z.

Inductive Dtype :=
  Undefined | Float32 | Float64 | Int32 | Int64 | UInt8 | UInt16 | Bool.

Definition Dtype_eqb (a b : Dtype) : bool :=
  match a, b with
  | Undefined, Undefined | Float32, Float32 | Float64, Float64
  | Int32, Int32 | Int64, Int64 | UInt8, UInt8 | UInt16, UInt16
  | Bool, Bool => true
  | _, _ => false
  end.

(** A [core::Tensor] used as a transformation: what the assertions of the
    file look at (shape, device, element type) and its entries, whose
    representation [Mat] the file never inspects. *)
Record Tensor (Mat : Type) := {
  shape_ : list Z;
  device_ : Device;
  dtype_ : Dtype;
  data_ : Mat
}.

(** A [geometry::PointCloud]: its device, the element type of its points
    tensor and the points, in order. *)
Record PointCloud (Point : Type) := {
  pc_device : Device;
  pc_dtype : Dtype;
  pc_points : list Point
}.

(** [source.GetPoints().GetShape()[0]]. *)
Definition num_points {Point} (pc : PointCloud Point) : nat :=
  length (pc_points pc).

(** [class RegistrationResult]; the two metrics are [double] members. *)
Record RegistrationResult (Mat : Type) := {
  transformation_ : Tensor Mat;
  correspondence_set_ : list Z;
  correspondence_select_bool_ : list bool;
  inlier_rmse_ : F64.t;
  fitness_ : F64.t
}.

(** Modelled from the spec: the constructor [RegistrationResult(transformation)]
    is declared in Registration.h, which is not among the sources.  It keeps
    the transformation and sets both metrics to 0; it receives nothing but the
    transformation, so the two correspondence tensors it leaves behind are
    the empty tensors of a default construction. *)
Definition RegistrationResult_new {Mat} (transformation : Tensor Mat)
  : RegistrationResult Mat :=
  {| transformation_ := transformation;
     correspondence_set_ := [];
     correspondence_select_bool_ := [];
     inlier_rmse_ := F64.zero;
     fitness_ := F64.zero |}.

(** [class ICPConvergenceCriteria]: two [double]s and an [int]. *)
Record ICPConvergenceCriteria := {
  relative_fitness_ : F64.t;
  relative_rmse_ : F64.t;
  max_iteration_ : Z
}.

(* ================================================================= *)
(** ** Collaborators *)

(** Modelled from the spec: [core::nns::NearestNeighborSearch] is not among
    the sources.  After section 4.1 of the spec an index answers each query
    point on its own: the exact-nearest query with the nearest target index
    and a distance, the radius query with the nearest target index within
    the radius and a distance, or the index -1 when there is none.  The two
    [..._index] fields are the results of [KnnIndex()] and [HybridIndex()],
    which build the index and say whether that worked.  The type [D] of
    distances is [F32.t] and the type [R] of the radius is [F64.t] in the
    code. *)
Record NearestNeighborSearch (Point D R : Type) := {
  knn_index : bool;
  hybrid_index : bool;
  knn_query : Point -> Z * D;
  hybrid_query : R -> Point -> Z * D
}.

(** [target_nns.KnnSearch(points, 1)]: the pair of the index tensor and the
    distance tensor, one row per query point. *)
Definition KnnSearch {Point D R} (nns : NearestNeighborSearch Point D R)
    (points : list Point) (knn : Z) : list Z * list D :=
  let rows := map (knn_query nns) points in
  (map fst rows, map snd rows).

(** [target_nns.HybridSearch(points, radius, 1)]. *)
Definition HybridSearch {Point D R} (nns : NearestNeighborSearch Point D R)
    (points : list Point) (radius : R) (max_knn : Z) : list Z * list D :=
  let rows := map (hybrid_query nns radius) points in
  (map fst rows, map snd rows).

(** The outcome of a call: a value, or the exception of a fatal error. *)
Inductive Outcome (A : Type) :=
| Ok (a : A)
| Fatal (msg : string).
Arguments Fatal {A} msg.

(** The tensor runtime the file relies on: the matrix product
    [a.Matmul(b)], the in-place [PointCloud::Transform] as a function on the
    points, and the construction of an index from the target points. *)
Class Runtime (Point Mat : Type) := {
  Matmul : Tensor Mat -> Tensor Mat -> Tensor Mat;
  transform_points : Tensor Mat -> list Point -> list Point;
  NearestNeighborSearch_new :
    list Point -> NearestNeighborSearch Point F32.t F64.t
}.

(** [source_transformed.Transform(transformation)]: the points change, the
    device and the element type stay. *)
Definition Transform {Point Mat} `{Runtime Point Mat}
    (transformation : Tensor Mat) (pc : PointCloud Point) : PointCloud Point :=
  {| pc_device := pc_device pc;
     pc_dtype := pc_dtype pc;
     pc_points := transform_points transformation (pc_points pc) |}.

(** The abstract class [TransformationEstimation]: one virtual method, from
    the working source, the target and the pair (mask, target indices) to an
    incremental transformation.  It may throw. *)
Record TransformationEstimation (Point Mat : Type) := {
  ComputeTransformation :
    PointCloud Point -> PointCloud Point -> list bool * list Z ->
    Outcome (Tensor Mat)
}.

(* ================================================================= *)
(** ** Traces and fatal errors *)

(** What a run does to its collaborators, in order.  [EvEvaluate] and
    [EvResult] mark the entry and the normal return of the wrapper
    [GetRegistrationResultAndCorrespondences]; the other events are calls
    the source makes. *)
Inductive Event (Point Mat : Type) :=
| EvNearestNeighborSearch (target_points : list Point)
| EvKnnIndex (ok : bool)
| EvHybridIndex (ok : bool)
| EvKnnSearch (query : list Point)
| EvHybridSearch (query : list Point) (radius : F64.t)
| EvTransform (transformation : Tensor Mat)
| EvComputeTransformation (source : PointCloud Point)
    (corres : list bool * list Z) (update : Outcome (Tensor Mat))
| EvLogDebug (i : Z) (fitness rmse : F64.t)
| EvEvaluate (source : PointCloud Point) (transformation : Tensor Mat)
| EvResult (result : RegistrationResult Mat).
Arguments EvNearestNeighborSearch {Point Mat}.
Arguments EvKnnIndex {Point Mat}.
Arguments EvHybridIndex {Point Mat}.
Arguments EvKnnSearch {Point Mat}.
Arguments EvHybridSearch {Point Mat}.
Arguments EvTransform {Point Mat}.
Arguments EvComputeTransformation {Point Mat}.
Arguments EvLogDebug {Point Mat}.
Arguments EvEvaluate {Point Mat}.
Arguments EvResult {Point Mat}.

(** A computation: the events it caused and how it ended. *)
Definition M (E A : Type) : Type := list E * Outcome A.

Definition ret {E A} (a : A) : M E A := ([], Ok a).

Definition bind {E A B} (m : M E A) (k : A -> M E B) : M E B :=
  match m with
  | (l, Ok a) => let (l', o) := k a in (l ++ l', o)
  | (l, Fatal msg) => (l, Fatal msg)
  end.

Definition emit {E} (e : E) : M E unit := ([e], Ok tt).

(** A call that leaves no event of its own and may throw. *)
Definition lift {E A} (o : Outcome A) : M E A := ([], o).

(** [utility::LogError]: throws. *)
Definition LogError {E A} (msg : string) : M E A := ([], Fatal msg).

Declare Scope trace_scope.
Delimit Scope trace_scope with trace.
Notation "x <- m ;; k" := (bind m (fun x => k))
  (at level 61, m at next level, right associativity) : trace_scope.
Notation "m ;; k" := (bind m (fun _ => k))
  (at level 61, right associativity) : trace_scope.
Open Scope trace_scope.

(** The events of a computation and its outcome. *)
Definition trace {E A} (m : M E A) : list E := fst m.
Definition outcome {E A} (m : M E A) : Outcome A := snd m.

(* ================================================================= *)
(** ** Tensor operations used by the file *)

Fixpoint shape_eqb (a b : list Z) : bool :=
  match a, b with
  | [], [] => true
  | x :: a', y :: b' => (x =? y)%Z && shape_eqb a' b'
  | _, _ => false
  end.

(** Modelled from the spec: the checks [AssertDtype], [AssertShape] and
    [AssertDevice] of core/Tensor.h (not among the sources) are the fatal
    preconditions of sections 4.2 and 7: each throws unless the tensor has
    the given property. *)
Definition AssertDtype {E} (actual expected : Dtype) : M E unit :=
  if Dtype_eqb actual expected then ret tt
  else LogError "Tensor has the wrong dtype.".

(** Modelled from the spec: [AssertShape] of core/Tensor.h, as above. *)
Definition AssertShape {E} (actual expected : list Z) : M E unit :=
  if shape_eqb actual expected then ret tt
  else LogError "Tensor has the wrong shape.".

(** Modelled from the spec: [AssertDevice] of core/Tensor.h, as above. *)
Definition AssertDevice {E} (actual expected : Device) : M E unit :=
  if Device_eqb actual expected then ret tt
  else LogError "Tensor has the wrong device.".

(** Modelled from the spec: the element-wise comparisons with a scalar,
    the selection by a boolean mask and the sum of core/Tensor.h (not among
    the sources).  [Ne] and [Le] give one boolean per element; [IndexGet]
    keeps the elements whose mask entry is true, in order; [Sum] adds the
    elements of a [Float32] tensor, 0 for none; [Reshape({-1})] flattens an
    N x 1 tensor, which a list already is. *)
Definition Ne (t : list Z) (v : Z) : list bool :=
  map (fun x => negb (x =? v)%Z) t.

(** Modelled from the spec: [Tensor::Le] with a scalar, as above. *)
Definition Le {D R} (le_scalar : D -> R -> bool) (t : list D) (v : R)
  : list bool :=
  map (fun x => le_scalar x v) t.

(** Modelled from the spec: [Tensor::IndexGet] with a boolean mask of the
    length of the tensor, as above. *)
Fixpoint IndexGet {A} (t : list A) (mask : list bool) : list A :=
  match t, mask with
  | x :: t', b :: mask' =>
      if b then x :: IndexGet t' mask' else IndexGet t' mask'
  | _, _ => []
  end.

(** Modelled from the spec: [Tensor::Sum] over a [Float32] tensor, as
    above; the elements are added from the first to the last. *)
Definition Sum (t : list F32.t) : F32.t := fold_left F32.add t F32.zero.

(** [t.GetShape()[0]] as an [int64_t]. *)
Definition GetShape0 {A} (t : list A) : Z := Z.of_nat (List.length t).

(** The arithmetic the two searches need: comparing a distance with the
    scalar cutoff ([Le] converts the scalar to the element type of the
    tensor) and multiplying two cutoffs. *)
Class Cutoff (D R : Type) := {
  le_scalar : D -> R -> bool;
  mul_cutoff : R -> R -> R
}.

#[export] Instance Cutoff_float : Cutoff F32.t F64.t := {
  le_scalar x v := F32.leb x (F64.to_F32 v);
  mul_cutoff := F64.mul
}.

(** Exact arithmetic, for statements about the two searches that are not
    about rounding. *)
#[export] Instance Cutoff_Q : Cutoff Q Q := {
  le_scalar := Qle_bool;
  mul_cutoff := Qmult
}.

(** The text both searches throw when the index is not built: the four
    literals of lines 66-70 and 122-126, joined. *)
Definition index_is_not_set : string :=
  ("[Tensor: EvaluateRegistration: "
   ++ "GetRegistrationResultAndCorrespondences: "
   ++ "NearestNeighborSearch::HybridSearch] "
   ++ "Index is not set.")%string.

(* ================================================================= *)
(** ** The two correspondence searches *)

(** The correspondences of one evaluation: the mask over the source points,
    the target indices of the selected ones and their distances. *)
Record Correspondences (D : Type) := {
  select_bool : list bool;
  corres_set : list Z;
  dist_select : list D
}.

(** Lines 73-83: one nearest neighbour per source point, kept when its
    distance is at most the cutoff. *)
Definition knn_correspondences {Point D R} `{Cutoff D R}
    (target_nns : NearestNeighborSearch Point D R) (points : list Point)
    (max_correspondence_distance : R) : Correspondences D :=
  let result_nns := KnnSearch target_nns points 1 in
  let select := Le le_scalar (snd result_nns) max_correspondence_distance in
  {| select_bool := select;
     corres_set := IndexGet (fst result_nns) select;
     dist_select := IndexGet (snd result_nns) select |}.

(** Lines 131-145: the cutoff is squared, the radius search is run with it,
    and a source point is kept when its index is not -1. *)
Definition hybrid_correspondences {Point D R} `{Cutoff D R}
    (target_nns : NearestNeighborSearch Point D R) (points : list Point)
    (max_correspondence_distance : R) : Correspondences D :=
  let max_correspondence_distance :=
    mul_cutoff max_correspondence_distance max_correspondence_distance in
  let result_nns :=
    HybridSearch target_nns points max_correspondence_distance 1 in
  let select := Ne (fst result_nns) (-1) in
  {| select_bool := select;
     corres_set := IndexGet (fst result_nns) select;
     dist_select := IndexGet (snd result_nns) select |}.

(** Lines 85-93 and 147-154: the two metrics, computed in [float] and stored
    in the [double] members, and the transformation. *)
Definition fill_result {Mat} (result : RegistrationResult Mat)
    (c : Correspondences F32.t) (transformation : Tensor Mat)
  : RegistrationResult Mat :=
  let squared_error := Sum (dist_select c) in
  let fitness :=
    F32.div (F32.of_Z (GetShape0 (corres_set c)))
            (F32.of_Z (GetShape0 (select_bool c))) in
  let inlier_rmse :=
    F32.sqrt (F32.div squared_error (F32.of_Z (GetShape0 (corres_set c)))) in
  {| transformation_ := transformation;
     correspondence_set_ := corres_set c;
     correspondence_select_bool_ := select_bool c;
     inlier_rmse_ := F64.of_F32 inlier_rmse;
     fitness_ := F64.of_F32 fitness |}.

Section Registration.
Context {Point Mat : Type} `{RT : Runtime Point Mat}.

Local Abbreviation Ev := (Event Point Mat).
Local Abbreviation Index := (NearestNeighborSearch Point F32.t F64.t).

(** The checks every function of the file starts with (lines 46-57,
    102-113, 166-177, 196-207). *)
Definition check_inputs (source target : PointCloud Point)
    (transformation : Tensor Mat) : M Ev unit :=
  let device := pc_device source in
  let dtype := Float32 in
  AssertDtype (pc_dtype source) dtype ;;
  AssertDtype (pc_dtype target) dtype ;;
  (if negb (Device_eqb (pc_device target) device)
   then LogError "Target Pointcloud device != Source Pointcloud's device."
   else ret tt) ;;
  AssertShape (shape_ transformation) [4; 4]%Z ;;
  AssertDevice (device_ transformation) device ;;
  AssertDtype (dtype_ transformation) dtype.

(** Lines 225-236: the same checks, the last two in the other order. *)
Definition check_inputs_icp (source target : PointCloud Point)
    (init : Tensor Mat) : M Ev unit :=
  let device := pc_device source in
  let dtype := Float32 in
  AssertDtype (pc_dtype source) dtype ;;
  AssertDtype (pc_dtype target) dtype ;;
  (if negb (Device_eqb (pc_device target) device)
   then LogError "Target Pointcloud device != Source Pointcloud's device."
   else ret tt) ;;
  AssertShape (shape_ init) [4; 4]%Z ;;
  AssertDtype (dtype_ init) dtype ;;
  AssertDevice (device_ init) device.

Definition GetCorrespondencesFromKNNSearch
    (source target : PointCloud Point) (target_nns : Index)
    (max_correspondence_distance : F64.t) (transformation : Tensor Mat)
  : M Ev (RegistrationResult Mat) :=
  check_inputs source target transformation ;;
  let result := RegistrationResult_new transformation in
  if F64.leb max_correspondence_distance F64.zero then ret result
  else
    let check := knn_index target_nns in
    emit (EvKnnIndex check) ;;
    (if negb check
     then LogError ("[Tensor: EvaluateRegistration: "
                    ++ "GetRegistrationResultAndCorrespondences: "
                    ++ "NearestNeighborSearch::HybridSearch] "
                    ++ "Index is not set.")%string
     else ret tt) ;;
    emit (EvKnnSearch (pc_points source)) ;;
    let c := knn_correspondences target_nns (pc_points source)
               max_correspondence_distance in
    ret (fill_result result c transformation).

Definition GetCorrespondencesFromHybridSearch
    (source target : PointCloud Point) (target_nns : Index)
    (max_correspondence_distance : F64.t) (transformation : Tensor Mat)
  : M Ev (RegistrationResult Mat) :=
  check_inputs source target transformation ;;
  let result := RegistrationResult_new transformation in
  if F64.leb max_correspondence_distance F64.zero then ret result
  else
    let check := hybrid_index target_nns in
    emit (EvHybridIndex check) ;;
    (if negb check
     then LogError ("[Tensor: EvaluateRegistration: "
                    ++ "GetRegistrationResultAndCorrespondences: "
                    ++ "NearestNeighborSearch::HybridSearch] "
                    ++ "Index is not set.")%string
     else ret tt) ;;
    emit (EvHybridSearch (pc_points source)
            (F64.mul max_correspondence_distance
                     max_correspondence_distance)) ;;
    let c := hybrid_correspondences target_nns (pc_points source)
               max_correspondence_distance in
    ret (fill_result result c transformation).

(** The wrapper, with its hard-wired choice of the radius search. *)
Definition GetRegistrationResultAndCorrespondences
    (source target : PointCloud Point) (target_nns : Index)
    (max_correspondence_distance : F64.t) (transformation : Tensor Mat)
  : M Ev (RegistrationResult Mat) :=
  emit (EvEvaluate source transformation) ;;
  check_inputs source target transformation ;;
  let condition := false in
  result <-
    (if condition
     then GetCorrespondencesFromKNNSearch source target target_nns
            max_correspondence_distance transformation
     else GetCorrespondencesFromHybridSearch source target target_nns
            max_correspondence_distance transformation) ;;
  emit (EvResult result) ;;
  ret result.

Definition EvaluateRegistration (source target : PointCloud Point)
    (max_correspondence_distance : F64.t) (transformation : Tensor Mat)
  : M Ev (RegistrationResult Mat) :=
  check_inputs source target transformation ;;
  let target_nns := NearestNeighborSearch_new (pc_points target) in
  emit (EvNearestNeighborSearch (pc_points target)) ;;
  let source_transformed := source in
  let source_transformed := Transform transformation source_transformed in
  emit (EvTransform transformation) ;;
  GetRegistrationResultAndCorrespondences source_transformed target
    target_nns max_correspondence_distance transformation.

(** The convergence test of lines 267-270, one comparison at a time. *)
Definition fitness_delta_below (criteria : ICPConvergenceCriteria)
    (backup result : RegistrationResult Mat) : bool :=
  F64.ltb (F64.abs (F64.sub (fitness_ backup) (fitness_ result)))
          (relative_fitness_ criteria).

Definition rmse_delta_below (criteria : ICPConvergenceCriteria)
    (backup result : RegistrationResult Mat) : bool :=
  F64.ltb (F64.abs (F64.sub (inlier_rmse_ backup) (inlier_rmse_ result)))
          (relative_rmse_ criteria).

Definition converged (criteria : ICPConvergenceCriteria)
    (backup result : RegistrationResult Mat) : bool :=
  fitness_delta_below criteria backup result
  && rmse_delta_below criteria backup result.

(** The loop of lines 253-273.  [todo] counts the iterations still allowed;
    [i] is the loop counter, used by the debug line only. *)
Fixpoint icp_loop (estimation : TransformationEstimation Point Mat)
    (criteria : ICPConvergenceCriteria) (target : PointCloud Point)
    (target_nns : Index) (max_correspondence_distance : F64.t)
    (todo : nat) (i : Z) (transformation : Tensor Mat)
    (source_transformed : PointCloud Point)
    (result : RegistrationResult Mat) (corres : list bool * list Z)
  : M Ev (RegistrationResult Mat) :=
  match todo with
  | O => ret result
  | S todo' =>
      emit (EvLogDebug i (fitness_ result) (inlier_rmse_ result)) ;;
      let call :=
        ComputeTransformation estimation source_transformed target corres in
      emit (EvComputeTransformation source_transformed corres call) ;;
      update <- lift call ;;
      let transformation := Matmul update transformation in
      let source_transformed := Transform update source_transformed in
      emit (EvTransform update) ;;
      let backup := result in
      result <- GetRegistrationResultAndCorrespondences source_transformed
                  target target_nns max_correspondence_distance
                  transformation ;;
      let corres := (correspondence_select_bool_ result,
                     correspondence_set_ result) in
      if converged criteria backup result then ret result
      else icp_loop estimation criteria target target_nns
             max_correspondence_distance todo' (i + 1)%Z transformation
             source_transformed result corres
  end.

Definition RegistrationICP (source target : PointCloud Point)
    (max_correspondence_distance : F64.t) (init : Tensor Mat)
    (estimation : TransformationEstimation Point Mat)
    (criteria : ICPConvergenceCriteria) : M Ev (RegistrationResult Mat) :=
  check_inputs_icp source target init ;;
  let transformation := init in
  let target_nns := NearestNeighborSearch_new (pc_points target) in
  emit (EvNearestNeighborSearch (pc_points target)) ;;
  let source_transformed := source in
  let source_transformed := Transform transformation source_transformed in
  emit (EvTransform transformation) ;;
  let result := RegistrationResult_new transformation in
  result <- GetRegistrationResultAndCorrespondences source_transformed
              target target_nns max_correspondence_distance
              transformation ;;
  let corres := (correspondence_select_bool_ result,
                 correspondence_set_ result) in
  icp_loop estimation criteria target target_nns
    max_correspondence_distance (Z.to_nat (max_iteration_ criteria)) 0%Z
    transformation source_transformed result corres.

End Registration.

(* ================================================================= *)
(** ** Reading a trace *)

Section Traces.
Context {Point Mat : Type}.

Local Abbreviation Ev := (Event Point Mat).

(** The number of calls of the estimator. *)
Fixpoint estimator_calls (l : list Ev) : nat :=
  match l with
  | [] => 0
  | EvComputeTransformation _ _ _ :: l' => S (estimator_calls l')
  | _ :: l' => estimator_calls l'
  end.

(** The transformations the estimator returned, in order. *)
Fixpoint updates (l : list Ev) : list (Tensor Mat) :=
  match l with
  | [] => []
  | EvComputeTransformation _ _ (Ok u) :: l' => u :: updates l'
  | _ :: l' => updates l'
  end.

(** The transformations the working cloud was transformed with, in order. *)
Fixpoint transforms (l : list Ev) : list (Tensor Mat) :=
  match l with
  | [] => []
  | EvTransform t :: l' => t :: transforms l'
  | _ :: l' => transforms l'
  end.

(** The arguments of the correspondence evaluations, in order. *)
Fixpoint evaluations (l : list Ev) : list (PointCloud Point * Tensor Mat) :=
  match l with
  | [] => []
  | EvEvaluate s t :: l' => (s, t) :: evaluations l'
  | _ :: l' => evaluations l'
  end.

(** The results of the correspondence evaluations, in order. *)
Fixpoint results (l : list Ev) : list (RegistrationResult Mat) :=
  match l with
  | [] => []
  | EvResult r :: l' => r :: results l'
  | _ :: l' => results l'
  end.

(** Is the event an index build or a nearest-neighbour search? *)
Definition is_search (e : Ev) : bool :=
  match e with
  | EvKnnIndex _ | EvHybridIndex _ | EvKnnSearch _ | EvHybridSearch _ _ =>
      true
  | _ => false
  end.

(** Is the event a call to the exact-nearest side of the index? *)
Definition is_knn (e : Ev) : bool :=
  match e with
  | EvKnnIndex _ | EvKnnSearch _ => true
  | _ => false
  end.

(** The number of indexes constructed. *)
Fixpoint constructions (l : list Ev) : nat :=
  match l with
  | [] => 0
  | EvNearestNeighborSearch _ :: l' => S (constructions l')
  | _ :: l' => constructions l'
  end.

(** The number of calls of [HybridIndex()]. *)
Fixpoint index_builds (l : list Ev) : nat :=
  match l with
  | [] => 0
  | EvHybridIndex _ :: l' => S (index_builds l')
  | _ :: l' => index_builds l'
  end.

(** The query points and the radius of the radius searches, in order. *)
Fixpoint searches (l : list Ev) : list (list Point * F64.t) :=
  match l with
  | [] => []
  | EvHybridSearch q radius :: l' => (q, radius) :: searches l'
  | _ :: l' => searches l'
  end.

(** The working cloud and the correspondences the estimator was called
    with, in order. *)
Fixpoint estimator_inputs (l : list Ev)
  : list (PointCloud Point * (list bool * list Z)) :=
  match l with
  | [] => []
  | EvComputeTransformation s c _ :: l' => (s, c) :: estimator_inputs l'
  | _ :: l' => estimator_inputs l'
  end.

(** The messages of the estimator calls that threw, in order. *)
Fixpoint failed_calls (l : list Ev) : list string :=
  match l with
  | [] => []
  | EvComputeTransformation _ _ (Fatal msg) :: l' => msg :: failed_calls l'
  | _ :: l' => failed_calls l'
  end.

(** The debug lines: iteration number, fitness and rmse, in order. *)
Fixpoint debug_lines (l : list Ev) : list (Z * F64.t * F64.t) :=
  match l with
  | [] => []
  | EvLogDebug i fitness rmse :: l' => (i, fitness, rmse) :: debug_lines l'
  | _ :: l' => debug_lines l'
  end.

End Traces.

(** The cumulative transformation after the updates [us], the first of them
    applied first: each update multiplies from the left. *)
Definition compose_updates {Point Mat} `{Runtime Point Mat}
    (init : Tensor Mat) (us : list (Tensor Mat)) : Tensor Mat :=
  fold_left (fun t u => Matmul u t) us init.

(** The arguments of the evaluations that follow the updates [us], when the
    working cloud is [working] and the cumulative transformation is
    [cumulative] before the first of them. *)
Fixpoint trajectory {Point Mat} `{Runtime Point Mat}
    (working : PointCloud Point) (cumulative : Tensor Mat)
    (us : list (Tensor Mat)) : list (PointCloud Point * Tensor Mat) :=
  match us with
  | [] => []
  | u :: us' =>
      let working' := Transform u working in
      let cumulative' := Matmul u cumulative in
      (working', cumulative') :: trajectory working' cumulative' us'
  end.

(** [rs] are the results a loop of at most [todo] iterations goes through
    after [previous]: it goes on exactly while the convergence test fails
    and iterations are left. *)
Fixpoint loop_results {Mat} (test : RegistrationResult Mat ->
                                    RegistrationResult Mat -> bool)
    (todo : nat) (previous : RegistrationResult Mat)
    (rs : list (RegistrationResult Mat)) : Prop :=
  match todo, rs with
  | O, [] => True
  | S todo', current :: rs' =>
      if test previous current then rs' = []
      else loop_results test todo' current rs'
  | _, _ => False
  end.

(** The inputs the checks accept. *)
Definition valid_inputs {Point Mat} (source target : PointCloud Point)
    (transformation : Tensor Mat) : Prop :=
  pc_dtype source = Float32 /\ pc_dtype target = Float32 /\
  pc_device target = pc_device source /\
  shape_ transformation = [4; 4]%Z /\
  device_ transformation = pc_device source /\
  dtype_ transformation = Float32.

(** The number of source points the radius search matches: those whose
    returned index is not -1. *)
Definition matched_count {Point D R} (target_nns : NearestNeighborSearch Point D R)
    (radius : R) (points : list Point) : nat :=
  List.length
    (filter (fun p => negb (fst (hybrid_query target_nns radius p) =? -1)%Z)
       points).

(** The distances the radius search returns for the source points it
    matches, in the order of the source points. *)
Definition matched_distances {Point D R}
    (target_nns : NearestNeighborSearch Point D R)
    (radius : R) (points : list Point) : list D :=
  map (fun p => snd (hybrid_query target_nns radius p))
    (filter (fun p => negb (fst (hybrid_query target_nns radius p) =? -1)%Z)
       points).

(** The target indices the radius search returns for the source points it
    matches, in the order of the source points. *)
Definition matched_indices {Point D R}
    (target_nns : NearestNeighborSearch Point D R)
    (radius : R) (points : list Point) : list Z :=
  map (fun p => fst (hybrid_query target_nns radius p))
    (filter (fun p => negb (fst (hybrid_query target_nns radius p) =? -1)%Z)
       points).

(** The number of true entries of a mask. *)
Definition count_true (mask : list bool) : nat :=
  List.length (filter (fun b => b) mask).

(** The position in the source of the [i]-th true entry of a mask. *)
Fixpoint nth_true (mask : list bool) (i : nat) : option nat :=
  match mask with
  | [] => None
  | true :: mask' =>
      match i with
      | O => Some O
      | S i' => option_map S (nth_true mask' i')
      end
  | false :: mask' => option_map S (nth_true mask' i)
  end.

(** Modelled from the spec: an index over exact distances, after section
    4.1.  [nearest p] is the target index nearest to the query point [p]
    and its linear distance.  The exact-nearest query returns both; the
    radius query works on squared distances: it returns the same index and
    the squared distance when that is within the radius, and the index -1
    otherwise. *)
Definition exact_index {Point} (nearest : Point -> Z * Q)
  : NearestNeighborSearch Point Q Q :=
  {| knn_index := true;
     hybrid_index := true;
     knn_query := nearest;
     hybrid_query := fun radius p =>
       let (j, d) := nearest p in
       if Qle_bool (d * d) radius then (j, d * d) else ((-1)%Z, 0) |}%Q.

(* ================================================================= *)
(** ** A small world to run the code in

    Points on the integer line and the maps [x |-> a * x + b] as
    transformations: enough for an index, an in-place transform, a product
    that does not commute and an estimator, all of them computable. *)

Module Line.

Definition cpu0 : Device := {| device_type := CPU; device_id := 0 |}.
Definition cuda0 : Device := {| device_type := CUDA; device_id := 0 |}.

(** The map [x |-> a * x + b] as a 4 x 4 [Float32] tensor on [cpu0]. *)
Definition affine (a b : Z) : Tensor (Z * Z) :=
  {| shape_ := [4; 4]%Z; device_ := cpu0; dtype_ := Float32; data_ := (a, b) |}.

Definition identity : Tensor (Z * Z) := affine 1 0.

Definition cloud (points : list Z) : PointCloud Z :=
  {| pc_device := cpu0; pc_dtype := Float32; pc_points := points |}.

(** The nearest of the targets [ts], numbered from [j], to the query [q]:
    its index and its squared distance, starting from [best]. *)
Fixpoint nearest_from (q : Z) (ts : list Z) (j : Z) (best : option (Z * Z))
  : option (Z * Z) :=
  match ts with
  | [] => best
  | t :: ts' =>
      let d := ((q - t) * (q - t))%Z in
      let best' :=
        match best with
        | Some (_, d0) => if (d <? d0)%Z then Some (j, d) else best
        | None => Some (j, d)
        end in
      nearest_from q ts' (j + 1)%Z best'
  end.

Definition index (target : list Z) : NearestNeighborSearch Z F32.t F64.t :=
  {| knn_index := true;
     hybrid_index := true;
     knn_query := fun q =>
       match nearest_from q target 0 None with
       | Some (j, d) => (j, F32.sqrt (F32.of_Z d))
       | None => ((-1)%Z, F32.zero)
       end;
     hybrid_query := fun radius q =>
       match nearest_from q target 0 None with
       | Some (j, d) =>
           if F64.leb (F64.of_Z d) radius then (j, F32.of_Z d)
           else ((-1)%Z, F32.zero)
       | None => ((-1)%Z, F32.zero)
       end |}.

#[export] Instance runtime : Runtime Z (Z * Z) := {
  Matmul := fun u t =>
    let (a, b) := data_ u in
    let (c, d) := data_ t in
    {| shape_ := shape_ u; device_ := device_ u; dtype_ := dtype_ u;
       data_ := (a * c, a * d + b)%Z |};
  transform_points := fun t points =>
    let (a, b) := data_ t in map (fun x => (a * x + b)%Z) points;
  NearestNeighborSearch_new := index
}.

(** An estimator: the translation that moves the first matched source point
    onto its target point; it throws when nothing is matched. *)
Definition first_pair : TransformationEstimation Z (Z * Z) :=
  {| ComputeTransformation := fun source target corres =>
       match IndexGet (pc_points source) (fst corres), snd corres with
       | s :: _, j :: _ =>
           Ok (affine 1 (nth (Z.to_nat j) (pc_points target) 0 - s)%Z)
       | _, _ => Fatal "InsufficientCorrespondence"
       end |}.

(** An estimator that moves every point one step to the right, whatever the
    correspondences. *)
Definition one_step : TransformationEstimation Z (Z * Z) :=
  {| ComputeTransformation := fun _ _ _ => Ok (affine 1 1) |}.

(** An estimator that doubles and shifts: its update does not commute with
    a translation. *)
Definition double_and_shift : TransformationEstimation Z (Z * Z) :=
  {| ComputeTransformation := fun _ _ _ => Ok (affine 2 1) |}.

(** Two targets, and three source points of which the third is far away. *)
Definition target : PointCloud Z := cloud [3; 13]%Z.
Definition source : PointCloud Z := cloud [0; 10; 100]%Z.
Definition far_source : PointCloud Z := cloud [100]%Z.
Definition cutoff : F64.t := F64.of_Z 5.

(** Clouds and a transformation the checks refuse. *)
Definition cuda_cloud (points : list Z) : PointCloud Z :=
  {| pc_device := cuda0; pc_dtype := Float32; pc_points := points |}.
Definition cloud64 (points : list Z) : PointCloud Z :=
  {| pc_device := cpu0; pc_dtype := Float64; pc_points := points |}.
Definition identity64 : Tensor (Z * Z) :=
  {| shape_ := [4; 4]%Z; device_ := cpu0; dtype_ := Float64;
     data_ := (1, 0)%Z |}.

(** The [double] just below 3 by 2^-40: as a [float] it is 3. *)
Definition below_three : F64.t :=
  binary_normalize F64.prec F64.emax (3 * 2 ^ 40 - 1) (-40) false.

(** One target at the origin, with exact distances. *)
Definition origin_index : NearestNeighborSearch Z Q Q :=
  exact_index (fun p => (0%Z, inject_Z (Z.abs p))).

Definition half : F64.t := binary_normalize F64.prec F64.emax 1 (-1) false.

(** An index whose build fails. *)
Definition unbuilt_index : NearestNeighborSearch Z F32.t F64.t :=
  {| knn_index := false;
     hybrid_index := false;
     knn_query := fun _ => ((-1)%Z, F32.zero);
     hybrid_query := fun _ _ => ((-1)%Z, F32.zero) |}.

(** The runtime of the line, with indexes that cannot be built. *)
Definition runtime_without_index : Runtime Z (Z * Z) :=
  {| Matmul := @Matmul _ _ runtime;
     transform_points := @transform_points _ _ runtime;
     NearestNeighborSearch_new := fun _ => unbuilt_index |}.

(** An estimator that throws at once. *)
Definition failing : TransformationEstimation Z (Z * Z) :=
  {| ComputeTransformation := fun _ _ _ => Fatal "InsufficientCorrespondence" |}.

(** An estimator whose update is a [Float64] tensor. *)
Definition wrong_precision : TransformationEstimation Z (Z * Z) :=
  {| ComputeTransformation := fun _ _ _ => Ok identity64 |}.

(** Thresholds of 0: no delta is below them. *)
Definition strict_criteria (n : Z) : ICPConvergenceCriteria :=
  {| relative_fitness_ := F64.zero; relative_rmse_ := F64.zero;
     max_iteration_ := n |}.

Definition criteria (n : Z) : ICPConvergenceCriteria :=
  {| relative_fitness_ := half; relative_rmse_ := half; max_iteration_ := n |}.

End Line.

(* ================================================================= *)
(** * Properties *)

(** ** Equality tests *)

Lemma Dtype_eqb_eq (a b : Dtype) : Dtype_eqb a b = true <-> a = b.
Proof. destruct a, b; simpl; split; congruence. Qed.

Lemma Device_eqb_eq (a b : Device) : Device_eqb a b = true <-> a = b.
Proof.
  destruct a as [ta ia], b as [tb ib]; unfold Device_eqb; simpl.
  rewrite andb_true_iff, Z.eqb_eq. split.
  - intros [Ht Hi]. destruct ta, tb; simpl in Ht; congruence.
  - intros Heq. injection Heq as -> ->. destruct tb; auto.
Qed.

Lemma Device_eqb_refl (a : Device) : Device_eqb a a = true.
Proof. apply Device_eqb_eq. reflexivity. Qed.

Lemma shape_eqb_eq (a b : list Z) : shape_eqb a b = true <-> a = b.
Proof.
  revert b. induction a as [|x a IH]; intros [|y b]; simpl;
    try (split; congruence).
  rewrite andb_true_iff, Z.eqb_eq, IH. split.
  - intros [-> ->]. reflexivity.
  - intros Heq. injection Heq as -> ->. auto.
Qed.

(** ** Sequencing *)

Lemma bind_ret_l {E A B} (a : A) (k : A -> M E B) : bind (ret a) k = k a.
Proof. unfold bind, ret. destruct (k a). reflexivity. Qed.

Lemma bind_fatal {E A B} (l : list E) (msg : string) (k : A -> M E B) :
  bind (l, Fatal msg) k = (l, Fatal msg).
Proof. reflexivity. Qed.

Lemma bind_assoc {E A B C} (m : M E A) (k : A -> M E B) (h : B -> M E C) :
  bind (bind m k) h = bind m (fun a => bind (k a) h).
Proof.
  destruct m as [l [a|msg]]; simpl; [|reflexivity].
  destruct (k a) as [l' [b|msg]]; simpl; [|reflexivity].
  destruct (h b) as [l'' o]. rewrite app_assoc. reflexivity.
Qed.

(** ** The constructor of results *)

(** Whatever a constructor that is given the transformation alone puts into
    the mask, its length cannot follow the number of source points. *)
Remark constructor_cannot_size_the_mask {Mat}
    (new : Tensor Mat -> RegistrationResult Mat) (transformation : Tensor Mat) :
  ~ (forall n : nat,
       List.length (correspondence_select_bool_ (new transformation)) = n).
Proof. intros Hall. pose proof (Hall 0) as H0. rewrite (Hall 1) in H0. discriminate. Qed.

(** ** The order of [double]s around 0 *)

Lemma F64_positive_not_le_zero (x : F64.t) :
  F64.ltb F64.zero x = true -> F64.leb x F64.zero = false.
Proof.
  unfold F64.ltb, F64.leb, F64.zero, SFltb, SFleb.
  destruct x as [s|s| |s m e]; simpl; try discriminate;
    destruct s; simpl; congruence.
Qed.

(** ** Masks *)

Lemma IndexGet_length {A} (t : list A) (mask : list bool) :
  List.length t = List.length mask ->
  List.length (IndexGet t mask) = count_true mask.
Proof.
  unfold count_true. revert mask.
  induction t as [|x t IH]; intros [|b mask] Hlen; simpl in *;
    try discriminate; auto.
  injection Hlen as Hlen. destruct b; simpl; rewrite IH; auto.
Qed.

Lemma IndexGet_map_filter {A B} (f : A -> B) (p : A -> bool) (l : list A) :
  IndexGet (map f l) (map p l) = map f (filter p l).
Proof.
  induction l as [|x l IH]; simpl; auto.
  destruct (p x); simpl; rewrite IH; reflexivity.
Qed.

Lemma count_true_map {A} (p : A -> bool) (l : list A) :
  count_true (map p l) = List.length (filter p l).
Proof.
  unfold count_true. induction l as [|x l IH]; simpl; auto.
  destruct (p x); simpl; rewrite IH; reflexivity.
Qed.

Lemma nth_true_IndexGet {A} (t : list A) (mask : list bool) :
  List.length t = List.length mask ->
  forall i j, nth_true mask i = Some j ->
    nth_error (IndexGet t mask) i = nth_error t j /\ nth_error mask j = Some true.
Proof.
  revert mask. induction t as [|x t IH]; intros [|b mask] Hlen i j Hnth;
    simpl in *; try discriminate.
  injection Hlen as Hlen. destruct b.
  - destruct i as [|i].
    + injection Hnth as <-. simpl. auto.
    + destruct (nth_true mask i) as [j'|] eqn:Hj; simpl in Hnth;
        try discriminate.
      injection Hnth as <-. simpl. apply IH; auto.
  - destruct (nth_true mask i) as [j'|] eqn:Hj; simpl in Hnth;
      try discriminate.
    injection Hnth as <-. simpl. apply IH; auto.
Qed.

Lemma nth_true_increasing (mask : list bool) :
  forall i i' j j', i < i' ->
    nth_true mask i = Some j -> nth_true mask i' = Some j' -> j < j'.
Proof.
  induction mask as [|b mask IH]; intros i i' j j' Hlt Hi Hi'; simpl in *;
    try discriminate.
  destruct b.
  - destruct i' as [|i']; [lia|].
    destruct (nth_true mask i') as [k'|] eqn:Hk'; simpl in Hi';
      try discriminate.
    injection Hi' as <-.
    destruct i as [|i].
    + injection Hi as <-. lia.
    + destruct (nth_true mask i) as [k|] eqn:Hk; simpl in Hi;
        try discriminate.
      injection Hi as <-.
      assert (k < k') by (apply (IH i i'); auto; lia). lia.
  - destruct (nth_true mask i) as [k|] eqn:Hk; simpl in Hi; try discriminate.
    destruct (nth_true mask i') as [k'|] eqn:Hk'; simpl in Hi';
      try discriminate.
    injection Hi as <-. injection Hi' as <-.
    assert (k < k') by (apply (IH i i'); auto). lia.
Qed.

Lemma nth_true_defined (mask : list bool) :
  forall i, i < count_true mask -> exists j, nth_true mask i = Some j.
Proof.
  unfold count_true. induction mask as [|b mask IH]; intros i Hi; simpl in *;
    [lia|].
  destruct b; simpl in *.
  - destruct i as [|i]; [eauto|].
    destruct (IH i) as [j Hj]; [lia|]. rewrite Hj. simpl. eauto.
  - destruct (IH i) as [j Hj]; [lia|]. rewrite Hj. simpl. eauto.
Qed.

(* ================================================================= *)
(** ** The checks *)

Section Checks.
Context {Point Mat : Type} `{RT : Runtime Point Mat}.

Local Abbreviation Ev := (Event Point Mat).

Lemma check_inputs_valid (source target : PointCloud Point)
    (transformation : Tensor Mat) :
  valid_inputs source target transformation ->
  check_inputs source target transformation = (ret tt : M Ev unit).
Proof.
  intros (Hs & Ht & Hd & Hshape & Hdev & Hty).
  unfold check_inputs, AssertDevice.
  rewrite Hs, Ht, Hd, Hshape, Hdev, Hty, Device_eqb_refl. reflexivity.
Qed.

Lemma check_inputs_icp_valid (source target : PointCloud Point)
    (init : Tensor Mat) :
  valid_inputs source target init ->
  check_inputs_icp source target init = (ret tt : M Ev unit).
Proof.
  intros (Hs & Ht & Hd & Hshape & Hdev & Hty).
  unfold check_inputs_icp, AssertDevice.
  rewrite Hs, Ht, Hd, Hshape, Hdev, Hty, Device_eqb_refl. reflexivity.
Qed.

Ltac failed_check := simpl; eexists; reflexivity.

Lemma check_inputs_invalid (source target : PointCloud Point)
    (transformation : Tensor Mat) :
  ~ valid_inputs source target transformation ->
  exists msg,
    check_inputs source target transformation = (LogError msg : M Ev unit).
Proof.
  intros Hbad. unfold check_inputs, AssertDtype, AssertShape, AssertDevice.
  destruct (Dtype_eqb (pc_dtype source) Float32) eqn:H1; [|failed_check].
  destruct (Dtype_eqb (pc_dtype target) Float32) eqn:H2; [|failed_check].
  destruct (Device_eqb (pc_device target) (pc_device source)) eqn:H3;
    [|failed_check].
  destruct (shape_eqb (shape_ transformation) [4; 4]%Z) eqn:H4;
    [|failed_check].
  destruct (Device_eqb (device_ transformation) (pc_device source)) eqn:H5;
    [|failed_check].
  destruct (Dtype_eqb (dtype_ transformation) Float32) eqn:H6;
    [|failed_check].
  exfalso. apply Hbad.
  apply Dtype_eqb_eq in H1, H2, H6. apply Device_eqb_eq in H3, H5.
  apply shape_eqb_eq in H4. repeat split; assumption.
Qed.

Lemma check_inputs_icp_invalid (source target : PointCloud Point)
    (init : Tensor Mat) :
  ~ valid_inputs source target init ->
  exists msg,
    check_inputs_icp source target init = (LogError msg : M Ev unit).
Proof.
  intros Hbad. unfold check_inputs_icp, AssertDtype, AssertShape, AssertDevice.
  destruct (Dtype_eqb (pc_dtype source) Float32) eqn:H1; [|failed_check].
  destruct (Dtype_eqb (pc_dtype target) Float32) eqn:H2; [|failed_check].
  destruct (Device_eqb (pc_device target) (pc_device source)) eqn:H3;
    [|failed_check].
  destruct (shape_eqb (shape_ init) [4; 4]%Z) eqn:H4; [|failed_check].
  destruct (Dtype_eqb (dtype_ init) Float32) eqn:H6; [|failed_check].
  destruct (Device_eqb (device_ init) (pc_device source)) eqn:H5;
    [|failed_check].
  exfalso. apply Hbad.
  apply Dtype_eqb_eq in H1, H2, H6. apply Device_eqb_eq in H3, H5.
  apply shape_eqb_eq in H4. repeat split; assumption.
Qed.

Lemma valid_inputs_dec (source target : PointCloud Point)
    (transformation : Tensor Mat) :
  valid_inputs source target transformation \/
  ~ valid_inputs source target transformation.
Proof.
  unfold valid_inputs.
  destruct (Dtype_eqb (pc_dtype source) Float32) eqn:H1;
    [apply Dtype_eqb_eq in H1 | right; intros (H & _); apply Dtype_eqb_eq in H; congruence].
  destruct (Dtype_eqb (pc_dtype target) Float32) eqn:H2;
    [apply Dtype_eqb_eq in H2 | right; intros (_ & H & _); apply Dtype_eqb_eq in H; congruence].
  destruct (Device_eqb (pc_device target) (pc_device source)) eqn:H3;
    [apply Device_eqb_eq in H3 | right; intros (_ & _ & H & _); apply Device_eqb_eq in H; congruence].
  destruct (shape_eqb (shape_ transformation) [4; 4]%Z) eqn:H4;
    [apply shape_eqb_eq in H4 | right; intros (_ & _ & _ & H & _); apply shape_eqb_eq in H; congruence].
  destruct (Device_eqb (device_ transformation) (pc_device source)) eqn:H5;
    [apply Device_eqb_eq in H5 | right; intros (_ & _ & _ & _ & H & _); apply Device_eqb_eq in H; congruence].
  destruct (Dtype_eqb (dtype_ transformation) Float32) eqn:H6;
    [apply Dtype_eqb_eq in H6 | right; intros (_ & _ & _ & _ & _ & H); apply Dtype_eqb_eq in H; congruence].
  left. repeat split; assumption.
Qed.

Lemma valid_inputs_Transform (t : Tensor Mat) (source target : PointCloud Point)
    (transformation : Tensor Mat) :
  valid_inputs source target transformation ->
  valid_inputs (Transform t source) target transformation.
Proof. unfold valid_inputs, Transform. simpl. auto. Qed.

(* ================================================================= *)
(** ** One evaluation *)

(** What the radius search computes once the checks are passed. *)
Lemma hybrid_search_valid (source target : PointCloud Point)
    (target_nns : NearestNeighborSearch Point F32.t F64.t)
    (max_correspondence_distance : F64.t) (transformation : Tensor Mat) :
  valid_inputs source target transformation ->
  GetCorrespondencesFromHybridSearch source target target_nns
    max_correspondence_distance transformation =
  if F64.leb max_correspondence_distance F64.zero
  then ret (RegistrationResult_new transformation)
  else if hybrid_index target_nns
  then ([EvHybridIndex true;
         EvHybridSearch (pc_points source)
           (F64.mul max_correspondence_distance max_correspondence_distance)],
        Ok (fill_result (RegistrationResult_new transformation)
              (hybrid_correspondences target_nns (pc_points source)
                 max_correspondence_distance) transformation))
  else ([EvHybridIndex false], Fatal index_is_not_set).
Proof.
  intros Hvalid. unfold GetCorrespondencesFromHybridSearch.
  rewrite (check_inputs_valid Hvalid). simpl.
  destruct (F64.leb max_correspondence_distance F64.zero); [reflexivity|].
  destruct (hybrid_index target_nns); reflexivity.
Qed.

(** The same for the wrapper, which adds its two marks. *)
Lemma evaluation_valid (source target : PointCloud Point)
    (target_nns : NearestNeighborSearch Point F32.t F64.t)
    (max_correspondence_distance : F64.t) (transformation : Tensor Mat) :
  valid_inputs source target transformation ->
  GetRegistrationResultAndCorrespondences source target target_nns
    max_correspondence_distance transformation =
  if F64.leb max_correspondence_distance F64.zero
  then ([EvEvaluate source transformation;
         EvResult (RegistrationResult_new transformation)],
        Ok (RegistrationResult_new transformation))
  else if hybrid_index target_nns
  then
    let r := fill_result (RegistrationResult_new transformation)
               (hybrid_correspondences target_nns (pc_points source)
                  max_correspondence_distance) transformation in
    ([EvEvaluate source transformation; EvHybridIndex true;
      EvHybridSearch (pc_points source)
        (F64.mul max_correspondence_distance max_correspondence_distance);
      EvResult r], Ok r)
  else ([EvEvaluate source transformation; EvHybridIndex false],
        Fatal index_is_not_set).
Proof.
  intros Hvalid. unfold GetRegistrationResultAndCorrespondences.
  rewrite (check_inputs_valid Hvalid), (hybrid_search_valid _ _ Hvalid).
  simpl.
  destruct (F64.leb max_correspondence_distance F64.zero); [reflexivity|].
  destruct (hybrid_index target_nns); reflexivity.
Qed.

Lemma evaluation_invalid (source target : PointCloud Point)
    (target_nns : NearestNeighborSearch Point F32.t F64.t)
    (max_correspondence_distance : F64.t) (transformation : Tensor Mat) :
  ~ valid_inputs source target transformation ->
  exists msg,
    GetRegistrationResultAndCorrespondences source target target_nns
      max_correspondence_distance transformation =
    ([EvEvaluate source transformation], Fatal msg).
Proof.
  intros Hbad. unfold GetRegistrationResultAndCorrespondences.
  destruct (check_inputs_invalid Hbad) as [msg ->]. exists msg. reflexivity.
Qed.

(** The shape of the trace of an evaluation, whatever its inputs: the mark
    of its entry, then events that are neither estimator calls nor
    transforms nor further evaluations, and the mark of its result exactly
    when it returns. *)
Lemma evaluation_trace (source target : PointCloud Point)
    (target_nns : NearestNeighborSearch Point F32.t F64.t)
    (max_correspondence_distance : F64.t) (transformation : Tensor Mat) :
  exists l,
    trace (GetRegistrationResultAndCorrespondences source target target_nns
             max_correspondence_distance transformation) =
    EvEvaluate source transformation :: l /\
    estimator_calls l = 0 /\ updates l = [] /\ transforms l = [] /\
    evaluations l = [] /\
    match outcome (GetRegistrationResultAndCorrespondences source target
                     target_nns max_correspondence_distance transformation)
    with
    | Ok r => results l = [r] /\ transformation_ r = transformation
    | Fatal _ => results l = []
    end.
Proof.
  destruct (valid_inputs_dec source target transformation) as [Hv|Hbad].
  - rewrite (evaluation_valid _ _ Hv).
    destruct (F64.leb max_correspondence_distance F64.zero).
    + eexists. simpl. repeat split.
    + destruct (hybrid_index target_nns); eexists; simpl; repeat split.
  - destruct (evaluation_invalid target_nns max_correspondence_distance Hbad)
      as [msg ->].
    exists []. simpl. repeat split.
Qed.

End Checks.

(* ================================================================= *)
(** ** What the radius search selects *)

Section Selection.
Context {Point D R : Type} `{Cutoff D R}.

Lemma hybrid_correspondences_spec
    (target_nns : NearestNeighborSearch Point D R) (points : list Point)
    (max_correspondence_distance : R) :
  let radius :=
    mul_cutoff max_correspondence_distance max_correspondence_distance in
  let c := hybrid_correspondences target_nns points
             max_correspondence_distance in
  select_bool c =
    map (fun p => negb (fst (hybrid_query target_nns radius p) =? -1)%Z)
      points /\
  corres_set c = matched_indices target_nns radius points /\
  dist_select c = matched_distances target_nns radius points.
Proof.
  unfold hybrid_correspondences, HybridSearch, Ne, matched_indices,
    matched_distances. simpl.
  rewrite !map_map. repeat split.
  - apply (IndexGet_map_filter
             (fun p => fst (hybrid_query target_nns _ p))).
  - apply (IndexGet_map_filter
             (fun p => snd (hybrid_query target_nns _ p))).
Qed.

End Selection.

Section Evaluation.
Context {Point Mat : Type} `{RT : Runtime Point Mat}.

(** The result of an evaluation that ran the search. *)
Lemma fill_result_hybrid (target_nns : NearestNeighborSearch Point F32.t F64.t)
    (points : list Point) (max_correspondence_distance : F64.t)
    (previous : RegistrationResult Mat) (transformation : Tensor Mat) :
  let radius :=
    F64.mul max_correspondence_distance max_correspondence_distance in
  let matched := Z.of_nat (matched_count target_nns radius points) in
  fill_result previous
    (hybrid_correspondences target_nns points max_correspondence_distance)
    transformation =
  {| transformation_ := transformation;
     correspondence_set_ := matched_indices target_nns radius points;
     correspondence_select_bool_ :=
       map (fun p => negb (fst (hybrid_query target_nns radius p) =? -1)%Z)
         points;
     inlier_rmse_ :=
       F64.of_F32
         (F32.sqrt
            (F32.div (Sum (matched_distances target_nns radius points))
                     (F32.of_Z matched)));
     fitness_ :=
       F64.of_F32
         (F32.div (F32.of_Z matched)
                  (F32.of_Z (Z.of_nat (List.length points)))) |}.
Proof.
  intros radius matched. unfold fill_result.
  destruct (hybrid_correspondences_spec target_nns points
              max_correspondence_distance) as (-> & -> & ->).
  fold radius. unfold GetShape0, matched_indices, matched, matched_count.
  rewrite !length_map. reflexivity.
Qed.

(** With no match at all the root mean square error is not a number. *)
Lemma no_match_rmse_nan (target_nns : NearestNeighborSearch Point F32.t F64.t)
    (points : list Point) (max_correspondence_distance : F64.t)
    (previous : RegistrationResult Mat) (transformation : Tensor Mat) :
  matched_count target_nns
    (F64.mul max_correspondence_distance max_correspondence_distance)
    points = 0 ->
  inlier_rmse_
    (fill_result previous
       (hybrid_correspondences target_nns points max_correspondence_distance)
       transformation) = S754_nan.
Proof.
  intros Hzero. rewrite fill_result_hybrid. cbn [inlier_rmse_].
  unfold matched_distances, matched_count in *.
  apply length_zero_iff_nil in Hzero. rewrite Hzero. reflexivity.
Qed.

End Evaluation.

(* ================================================================= *)
(** ** Reading the trace of a sequence *)

Section TraceFacts.
Context {Point Mat : Type}.

Local Abbreviation Ev := (Event Point Mat).

Ltac by_events l :=
  induction l as [|[] l IH]; intros; simpl; try rewrite IH; auto.

Lemma estimator_calls_app (l l' : list Ev) :
  estimator_calls (l ++ l') = estimator_calls l + estimator_calls l'.
Proof. by_events l. Qed.

Lemma updates_app (l l' : list Ev) :
  updates (l ++ l') = updates l ++ updates l'.
Proof.
  induction l as [|e l IH]; simpl; [reflexivity|].
  destruct e as [ | | | | | |? ? [u|msg]| | | ]; simpl; rewrite ?IH;
    reflexivity.
Qed.

Lemma transforms_app (l l' : list Ev) :
  transforms (l ++ l') = transforms l ++ transforms l'.
Proof. by_events l. Qed.

Lemma evaluations_app (l l' : list Ev) :
  evaluations (l ++ l') = evaluations l ++ evaluations l'.
Proof. by_events l. Qed.

Lemma results_app (l l' : list Ev) :
  results (l ++ l') = results l ++ results l'.
Proof. by_events l. Qed.

End TraceFacts.

(* ================================================================= *)
(** ** The results a loop goes through *)

Lemma last_cons_default {A} (l : list A) :
  forall a d, last (a :: l) d = last l a.
Proof.
  induction l as [|b l IH]; intros a d; [reflexivity|].
  change (last (b :: l) d = last (b :: l) a). rewrite !IH. reflexivity.
Qed.

Lemma loop_results_nth {Mat}
    (test : RegistrationResult Mat -> RegistrationResult Mat -> bool) :
  forall todo previous rs,
    loop_results test todo previous rs ->
    List.length rs <= todo /\
    forall j a b,
      nth_error (previous :: rs) j = Some a ->
      nth_error (previous :: rs) (S j) = Some b ->
      (S j = List.length rs <-> test a b = true \/ S j = todo).
Proof.
  induction todo as [|todo IH]; intros previous [|current rs] Hloop;
    simpl in Hloop; try contradiction.
  - split; [simpl; lia|]. intros [|j] a b _ Hb; simpl in Hb; discriminate.
  - destruct (test previous current) eqn:Htest.
    + subst rs. split; [simpl; lia|].
      intros [|j] a b Ha Hb; simpl in *.
      * injection Ha as <-. injection Hb as <-. tauto.
      * destruct j; discriminate.
    + destruct (IH current rs Hloop) as [Hlen Hnth].
      split; [simpl; lia|].
      intros [|j] a b Ha Hb.
      * simpl in Ha, Hb. injection Ha as <-. injection Hb as <-.
        simpl. split.
        -- intros Hone. right. f_equal.
           destruct rs; [|simpl in Hone; lia].
           destruct todo; [reflexivity|]. simpl in Hloop. contradiction.
        -- intros [Hconv|Hlast]; [congruence|].
           injection Hlast as <-. f_equal.
           destruct rs; [reflexivity|]. simpl in Hloop. contradiction.
      * change (nth_error (previous :: current :: rs) (S j))
          with (nth_error (current :: rs) j) in Ha.
        change (nth_error (previous :: current :: rs) (S (S j)))
          with (nth_error (current :: rs) (S j)) in Hb.
        specialize (Hnth j a b Ha Hb). simpl. rewrite <- Nat.succ_inj_wd in Hnth.
        rewrite Hnth. split; intros [Hc|Hc]; auto; right; lia.
Qed.

Lemma trajectory_length {Point Mat} `{Runtime Point Mat}
    (us : list (Tensor Mat)) :
  forall (working : PointCloud Point) (cumulative : Tensor Mat),
    List.length (trajectory working cumulative us) = List.length us.
Proof. induction us as [|u us IH]; intros; simpl; auto. Qed.

Lemma trajectory_nth {Point Mat} `{Runtime Point Mat}
    (us : list (Tensor Mat)) :
  forall (working : PointCloud Point) (cumulative : Tensor Mat) j u w c,
    nth_error us j = Some u ->
    nth_error ((working, cumulative) :: trajectory working cumulative us) j
      = Some (w, c) ->
    nth_error ((working, cumulative) :: trajectory working cumulative us) (S j)
      = Some (Transform u w, Matmul u c).
Proof.
  induction us as [|u0 us IH]; intros working cumulative j u w c Hu Hj.
  - destruct j; discriminate.
  - destruct j as [|j].
    + simpl in *. injection Hu as ->. injection Hj as <- <-. reflexivity.
    + simpl in Hu.
      change (nth_error (trajectory working cumulative (u0 :: us)) j
              = Some (w, c)) in Hj.
      change (nth_error (trajectory working cumulative (u0 :: us)) (S j)
              = Some (Transform u w, Matmul u c)).
      simpl in Hj |- *. apply IH; assumption.
Qed.

(* ================================================================= *)
(** ** The loop *)

Section Loop.
Context {Point Mat : Type} `{RT : Runtime Point Mat}.
Variable estimation : TransformationEstimation Point Mat.
Variable criteria : ICPConvergenceCriteria.
Variable target : PointCloud Point.
Variable target_nns : NearestNeighborSearch Point F32.t F64.t.
Variable max_correspondence_distance : F64.t.

(** One iteration of the loop. *)
Lemma icp_loop_S todo i transformation working result corres :
  icp_loop estimation criteria target target_nns max_correspondence_distance
    (S todo) i transformation working result corres =
  (emit (EvLogDebug i (fitness_ result) (inlier_rmse_ result)) ;;
   emit (EvComputeTransformation working corres
           (ComputeTransformation estimation working target corres)) ;;
   update <- lift (ComputeTransformation estimation working target corres) ;;
   emit (EvTransform update) ;;
   current <- GetRegistrationResultAndCorrespondences
                (Transform update working) target target_nns
                max_correspondence_distance (Matmul update transformation) ;;
   if converged criteria result current then ret current
   else icp_loop estimation criteria target target_nns
          max_correspondence_distance todo (i + 1)%Z
          (Matmul update transformation) (Transform update working) current
          (correspondence_select_bool_ current, correspondence_set_ current)).
Proof. reflexivity. Qed.

(** What a run of the loop leaves in its trace, for every state it is
    entered in. *)
Lemma icp_loop_spec :
  forall todo i transformation working result corres,
    let run := icp_loop estimation criteria target target_nns
                 max_correspondence_distance todo i transformation working
                 result corres in
    estimator_calls (trace run) <= todo /\
    transforms (trace run) = updates (trace run) /\
    evaluations (trace run) =
      trajectory working transformation (updates (trace run)) /\
    forall r, outcome run = Ok r ->
      List.length (updates (trace run)) = estimator_calls (trace run) /\
      List.length (results (trace run)) = estimator_calls (trace run) /\
      last (results (trace run)) result = r /\
      (transformation_ result = transformation ->
       transformation_ r =
         compose_updates transformation (updates (trace run))) /\
      loop_results (converged criteria) todo result (results (trace run)).
Proof.
  induction todo as [|todo IH]; intros i transformation working result corres;
    cbv zeta.
  - simpl. split; [lia|]. split; [reflexivity|]. split; [reflexivity|].
    intros r Hr. injection Hr as <-. repeat split; auto.
  - rewrite icp_loop_S.
    destruct (ComputeTransformation estimation working target corres)
      as [u|msg] eqn:Hcall.
    + destruct (evaluation_trace (Transform u working) target target_nns
                  max_correspondence_distance (Matmul u transformation))
        as (l & Htrace & Hcalls & Hupd & Htrans & Hevals & Hout).
      simpl.
      destruct (GetRegistrationResultAndCorrespondences (Transform u working)
                  target target_nns max_correspondence_distance
                  (Matmul u transformation)) as [tr [r'|msg]] eqn:Heval;
        simpl in Htrace, Hout; subst tr.
      * destruct Hout as [Hres Htransf]. simpl.
        destruct (converged criteria result r') eqn:Hconv.
        -- simpl.
           rewrite ?app_nil_r, Hcalls, Hupd, Htrans, Hevals, Hres.
           split; [lia|]. split; [reflexivity|]. split; [reflexivity|].
           intros r Hr. injection Hr as <-. simpl. rewrite Hconv.
           repeat split; auto.
        -- specialize (IH (i + 1)%Z (Matmul u transformation)
                         (Transform u working) r'
                         (correspondence_select_bool_ r',
                          correspondence_set_ r')).
           destruct (icp_loop estimation criteria target target_nns
                       max_correspondence_distance todo (i + 1)%Z
                       (Matmul u transformation) (Transform u working) r'
                       (correspondence_select_bool_ r',
                        correspondence_set_ r')) as [tr2 out2] eqn:Hloop.
           simpl in IH. destruct IH as (IHcalls & IHtrans & IHevals & IHok).
           simpl.
           rewrite estimator_calls_app, updates_app, transforms_app,
             evaluations_app, results_app, Hcalls, Hupd, Htrans, Hevals, Hres.
           simpl. rewrite IHtrans, IHevals.
           split; [lia|]. split; [reflexivity|]. split; [reflexivity|].
           intros r Hr.
           destruct (IHok r Hr) as (Hlen1 & Hlen2 & Hlast & Hcomp & Hresults).
           rewrite Hconv.
           split; [lia|]. split; [lia|]. split.
           { rewrite <- Hlast. apply last_cons_default. }
           split; [|assumption].
           intros _. apply Hcomp. assumption.
      * simpl. rewrite Hcalls, Hupd, Htrans, Hevals.
        split; [lia|]. split; [reflexivity|]. split; [reflexivity|].
        intros r Hr. discriminate.
    + simpl. split; [lia|]. split; [reflexivity|]. split; [reflexivity|].
      intros r Hr. discriminate.
Qed.

End Loop.

(* ================================================================= *)
(** ** A whole registration *)

Section Run.
Context {Point Mat : Type} `{RT : Runtime Point Mat}.

Local Abbreviation Ev := (Event Point Mat).

(** Inputs the checks refuse end both public functions at once, with an
    empty trace. *)
Lemma invalid_inputs_fatal (source target : PointCloud Point)
    (max_correspondence_distance : F64.t) (transformation : Tensor Mat)
    (estimation : TransformationEstimation Point Mat)
    (criteria : ICPConvergenceCriteria) :
  ~ valid_inputs source target transformation ->
  (exists msg,
     EvaluateRegistration source target max_correspondence_distance
       transformation = ([], Fatal msg)) /\
  (exists msg,
     RegistrationICP source target max_correspondence_distance transformation
       estimation criteria = ([], Fatal msg)).
Proof.
  intros Hbad. split.
  - destruct (check_inputs_invalid Hbad) as [msg Hmsg]. exists msg.
    unfold EvaluateRegistration. rewrite Hmsg. reflexivity.
  - destruct (check_inputs_icp_invalid Hbad) as [msg Hmsg]. exists msg.
    unfold RegistrationICP. rewrite Hmsg. reflexivity.
Qed.

Lemma RegistrationICP_valid (source target : PointCloud Point)
    (max_correspondence_distance : F64.t) (init : Tensor Mat)
    (estimation : TransformationEstimation Point Mat)
    (criteria : ICPConvergenceCriteria) :
  valid_inputs source target init ->
  RegistrationICP source target max_correspondence_distance init estimation
    criteria =
  (emit (EvNearestNeighborSearch (pc_points target)) ;;
   emit (EvTransform init) ;;
   result <- GetRegistrationResultAndCorrespondences (Transform init source)
               target (NearestNeighborSearch_new (pc_points target))
               max_correspondence_distance init ;;
   icp_loop estimation criteria target
     (NearestNeighborSearch_new (pc_points target))
     max_correspondence_distance (Z.to_nat (max_iteration_ criteria)) 0%Z
     init (Transform init source) result
     (correspondence_select_bool_ result, correspondence_set_ result)).
Proof.
  intros Hvalid. unfold RegistrationICP.
  rewrite (check_inputs_icp_valid Hvalid), bind_ret_l. reflexivity.
Qed.

(** What the trace of a registration on accepted inputs holds. *)
Lemma RegistrationICP_spec (source target : PointCloud Point)
    (max_correspondence_distance : F64.t) (init : Tensor Mat)
    (estimation : TransformationEstimation Point Mat)
    (criteria : ICPConvergenceCriteria) :
  valid_inputs source target init ->
  let run := RegistrationICP source target max_correspondence_distance init
               estimation criteria in
  estimator_calls (trace run) <= Z.to_nat (max_iteration_ criteria) /\
  forall r, outcome run = Ok r ->
    transforms (trace run) = init :: updates (trace run) /\
    evaluations (trace run) =
      (Transform init source, init)
      :: trajectory (Transform init source) init (updates (trace run)) /\
    List.length (updates (trace run)) = estimator_calls (trace run) /\
    transformation_ r = compose_updates init (updates (trace run)) /\
    exists r0 rs,
      results (trace run) = r0 :: rs /\
      List.length rs = estimator_calls (trace run) /\
      last rs r0 = r /\
      loop_results (converged criteria) (Z.to_nat (max_iteration_ criteria))
        r0 rs.
Proof.
  intros Hvalid. cbv zeta. rewrite (RegistrationICP_valid _ _ _ Hvalid).
  destruct (evaluation_trace (Transform init source) target
              (NearestNeighborSearch_new (pc_points target))
              max_correspondence_distance init)
    as (l & Htrace & Hcalls & Hupd & Htrans & Hevals & Hout).
  destruct (GetRegistrationResultAndCorrespondences (Transform init source)
              target (NearestNeighborSearch_new (pc_points target))
              max_correspondence_distance init) as [tr [r0|msg]] eqn:Heval;
    simpl in Htrace, Hout; subst tr.
  - destruct Hout as [Hres Htransf].
    pose proof (icp_loop_spec estimation criteria target
                  (NearestNeighborSearch_new (pc_points target))
                  max_correspondence_distance
                  (Z.to_nat (max_iteration_ criteria)) 0%Z init
                  (Transform init source) r0
                  (correspondence_select_bool_ r0, correspondence_set_ r0))
      as Hloop.
    cbv zeta in Hloop. simpl.
    destruct (icp_loop estimation criteria target
                (NearestNeighborSearch_new (pc_points target))
                max_correspondence_distance
                (Z.to_nat (max_iteration_ criteria)) 0%Z init
                (Transform init source) r0
                (correspondence_select_bool_ r0, correspondence_set_ r0))
      as [tr2 out2].
    simpl in Hloop. destruct Hloop as (Lcalls & Ltrans & Levals & Lok).
    simpl.
    rewrite estimator_calls_app, updates_app, transforms_app,
      evaluations_app, results_app, Hcalls, Hupd, Htrans, Hevals, Hres.
    simpl. split; [assumption|].
    intros r Hr.
    destruct (Lok r Hr) as (Hlen1 & Hlen2 & Hlast & Hcomp & Hresults).
    rewrite Ltrans, Levals. repeat split; auto.
    exists r0, (results tr2). repeat split; auto.
  - simpl. rewrite Hcalls. split; [lia|]. intros r Hr. discriminate.
Qed.

End Run.

Lemma nth_error_last {A} (l : list A) :
  forall d, nth_error (d :: l) (List.length l) = Some (last l d).
Proof.
  induction l as [|a l IH]; intros d; [reflexivity|].
  change (nth_error (a :: l) (List.length l) = Some (last (a :: l) d)).
  rewrite IH, last_cons_default. reflexivity.
Qed.

(* ================================================================= *)
(** * The claims *)

Section Claims.
Context {Point Mat : Type} `{RT : Runtime Point Mat}.

(** C6: in a run of [RegistrationICP] that returns, every update [u] the
    estimator returned was multiplied from the left onto the cumulative
    transformation ([Matmul u cumulative], in this order) and applied to the
    working cloud as it was ([Transform u working]): the in-place
    transforms of the run are the initial transformation and then the
    updates themselves, each evaluation gets the cloud and the
    transformation of the evaluation before it changed in this way, and the
    returned transformation is the product of all updates onto the initial
    one. *)
Theorem update_is_left_composed (source target : PointCloud Point)
    (max_correspondence_distance : F64.t) (init : Tensor Mat)
    (estimation : TransformationEstimation Point Mat)
    (criteria : ICPConvergenceCriteria) (r : RegistrationResult Mat) :
  let run := RegistrationICP source target max_correspondence_distance init
               estimation criteria in
  outcome run = Ok r ->
  let us := updates (trace run) in
  let evs := evaluations (trace run) in
  transforms (trace run) = init :: us /\
  nth_error evs 0 = Some (Transform init source, init) /\
  List.length evs = S (List.length us) /\
  (forall j u working cumulative,
     nth_error us j = Some u ->
     nth_error evs j = Some (working, cumulative) ->
     nth_error evs (S j) = Some (Transform u working, Matmul u cumulative)) /\
  transformation_ r = compose_updates init us.
Proof.
  cbv zeta. intros Hout.
  destruct (valid_inputs_dec source target init) as [Hvalid|Hbad].
  - destruct (RegistrationICP_spec max_correspondence_distance estimation
                criteria Hvalid) as [_ Hok].
    destruct (Hok r Hout) as (Htrans & Hevals & _ & Hcomp & _).
    rewrite Hevals. repeat split; auto.
    + simpl. rewrite trajectory_length. reflexivity.
    + intros j u working cumulative Hu Hj.
      apply trajectory_nth; assumption.
  - destruct (invalid_inputs_fatal max_correspondence_distance estimation
                criteria Hbad) as [_ [msg Hmsg]].
    rewrite Hmsg in Hout. discriminate.
Qed.


End Claims.

Section EvaluationClaims.
Context {Point Mat : Type} `{RT : Runtime Point Mat}.

(** C3, as the code has it: an evaluation on accepted inputs with
    [max_correspondence_distance <= 0] returns the freshly constructed
    result: the given transformation, no correspondence index, fitness 0
    and rmse 0; its mask is the empty tensor, so no entry of it is true, and
    its length is 0 whatever the number of source points.  The trace holds
    the entry and the return of the evaluation and nothing else: no index
    was built and no search was run. *)
Theorem short_circuit_result (source target : PointCloud Point)
    (target_nns : NearestNeighborSearch Point F32.t F64.t)
    (max_correspondence_distance : F64.t) (transformation : Tensor Mat) :
  valid_inputs source target transformation ->
  F64.leb max_correspondence_distance F64.zero = true ->
  exists r,
    GetRegistrationResultAndCorrespondences source target target_nns
      max_correspondence_distance transformation =
    ([EvEvaluate source transformation; EvResult r], Ok r) /\
    transformation_ r = transformation /\
    correspondence_select_bool_ r = [] /\
    correspondence_set_ r = [] /\
    fitness_ r = F64.zero /\
    inlier_rmse_ r = F64.zero /\
    filter is_search
      (trace (GetRegistrationResultAndCorrespondences source target
                target_nns max_correspondence_distance transformation)) = [].
Proof.
  intros Hvalid Hle. exists (RegistrationResult_new transformation).
  rewrite (evaluation_valid _ _ Hvalid), Hle. simpl. repeat split.
Qed.

(** C5: an evaluation on accepted inputs with a positive cutoff and an index
    that is built returns a result with one correspondence index per matched
    source point, whose fitness is the number of matched source points
    divided by the number of source points, and whose rmse is the square
    root of the sum of the distances the radius search returned for the
    matched points (squared distances, by the contract of the index)
    divided by the number of matched points.  Both are computed in [float]
    and stored as [double].  The equations hold for every number of
    matches, so for every positive one. *)
Theorem fitness_and_rmse (source target : PointCloud Point)
    (target_nns : NearestNeighborSearch Point F32.t F64.t)
    (max_correspondence_distance : F64.t) (transformation : Tensor Mat) :
  let radius :=
    F64.mul max_correspondence_distance max_correspondence_distance in
  let matched := matched_count target_nns radius (pc_points source) in
  valid_inputs source target transformation ->
  F64.ltb F64.zero max_correspondence_distance = true ->
  hybrid_index target_nns = true ->
  exists r,
    outcome (GetRegistrationResultAndCorrespondences source target target_nns
               max_correspondence_distance transformation) = Ok r /\
    List.length (correspondence_set_ r) = matched /\
    fitness_ r =
      F64.of_F32 (F32.div (F32.of_Z (Z.of_nat matched))
                          (F32.of_Z (Z.of_nat (num_points source)))) /\
    inlier_rmse_ r =
      F64.of_F32
        (F32.sqrt
           (F32.div
              (Sum (matched_distances target_nns radius (pc_points source)))
              (F32.of_Z (Z.of_nat matched)))).
Proof.
  intros radius matched Hvalid Hpos Hindex.
  rewrite (evaluation_valid _ _ Hvalid), (F64_positive_not_le_zero _ Hpos),
    Hindex.
  eexists. split; [reflexivity|]. rewrite fill_result_hybrid.
  repeat split. apply length_map.
Qed.

(** C8, as the code has it: every result a correspondence evaluation
    returns has as many correspondence indices as its mask has true
    entries; the indices are in the order of the source points, the [i]-th
    of them being the target index the radius search returned for the
    source point at the [i]-th true entry of the mask.  The mask has one
    entry per source point when the search was run; when
    [max_correspondence_distance <= 0] it is the empty tensor. *)
Theorem correspondence_layout (source target : PointCloud Point)
    (target_nns : NearestNeighborSearch Point F32.t F64.t)
    (max_correspondence_distance : F64.t) (transformation : Tensor Mat)
    (r : RegistrationResult Mat) :
  let radius :=
    F64.mul max_correspondence_distance max_correspondence_distance in
  outcome (GetRegistrationResultAndCorrespondences source target target_nns
             max_correspondence_distance transformation) = Ok r ->
  List.length (correspondence_set_ r)
    = count_true (correspondence_select_bool_ r) /\
  (if F64.leb max_correspondence_distance F64.zero
   then correspondence_select_bool_ r = []
   else List.length (correspondence_select_bool_ r) = num_points source) /\
  (forall i, i < List.length (correspondence_set_ r) ->
     exists j, nth_true (correspondence_select_bool_ r) i = Some j) /\
  (forall i i' j j', i < i' ->
     nth_true (correspondence_select_bool_ r) i = Some j ->
     nth_true (correspondence_select_bool_ r) i' = Some j' -> j < j') /\
  (forall i j, nth_true (correspondence_select_bool_ r) i = Some j ->
     nth_error (correspondence_select_bool_ r) j = Some true /\
     exists p, nth_error (pc_points source) j = Some p /\
       nth_error (correspondence_set_ r) i
         = Some (fst (hybrid_query target_nns radius p))).
Proof.
  intros radius Hout.
  assert (Hlayout :
    List.length (correspondence_set_ r)
      = count_true (correspondence_select_bool_ r) /\
    (if F64.leb max_correspondence_distance F64.zero
     then correspondence_select_bool_ r = []
     else List.length (correspondence_select_bool_ r) = num_points source) /\
    (forall i j, nth_true (correspondence_select_bool_ r) i = Some j ->
       nth_error (correspondence_select_bool_ r) j = Some true /\
       exists p, nth_error (pc_points source) j = Some p /\
         nth_error (correspondence_set_ r) i
           = Some (fst (hybrid_query target_nns radius p)))).
  { destruct (valid_inputs_dec source target transformation) as [Hvalid|Hbad].
    - rewrite (evaluation_valid _ _ Hvalid) in Hout.
      destruct (F64.leb max_correspondence_distance F64.zero).
      + injection Hout as <-. simpl. repeat split; try discriminate.
        all: destruct i; discriminate.
      + destruct (hybrid_index target_nns); [|discriminate].
        injection Hout as <-. rewrite fill_result_hybrid. simpl.
        fold radius. unfold matched_indices.
        set (hit := fun p => negb (fst (hybrid_query target_nns radius p)
                                   =? -1)%Z).
        set (idx := fun p => fst (hybrid_query target_nns radius p)).
        split; [rewrite length_map, count_true_map; reflexivity|].
        split; [apply length_map|].
        intros i j Hij.
        rewrite <- (IndexGet_map_filter idx hit).
        destruct (nth_true_IndexGet (map idx (pc_points source))
                    (map hit (pc_points source))) with (i := i) (j := j)
          as [Hget Htrue]; [rewrite !length_map; reflexivity|assumption|].
        split; [assumption|].
        rewrite Hget, nth_error_map.
        destruct (nth_error (pc_points source) j) as [p|] eqn:Hp.
        * exists p. split; reflexivity.
        * rewrite nth_error_map, Hp in Htrue. discriminate.
    - destruct (evaluation_invalid target_nns max_correspondence_distance
                  Hbad) as [msg Hmsg].
      rewrite Hmsg in Hout. discriminate. }
  destruct Hlayout as (Hlen & Hmask & Hpair).
  split; [assumption|]. split; [assumption|]. split.
  { intros i Hi. apply nth_true_defined. rewrite <- Hlen. assumption. }
  split; [apply nth_true_increasing|exact Hpair].
Qed.

(** C9: when source and target are on different devices or of different
    precisions, or the transformation is not 4 x 4, or its device or its
    precision is not that of the point clouds, [EvaluateRegistration] and
    [RegistrationICP] end in a fatal error with an empty trace: no index
    was made or built, no search was run, no correspondence was computed,
    and nothing was tried a second time. *)
Theorem precondition_violation_is_fatal (source target : PointCloud Point)
    (max_correspondence_distance : F64.t) (transformation : Tensor Mat)
    (estimation : TransformationEstimation Point Mat)
    (criteria : ICPConvergenceCriteria) :
  pc_device source <> pc_device target \/
  pc_dtype source <> pc_dtype target \/
  shape_ transformation <> [4; 4]%Z \/
  device_ transformation <> pc_device source \/
  device_ transformation <> pc_device target \/
  dtype_ transformation <> pc_dtype source \/
  dtype_ transformation <> pc_dtype target ->
  (exists msg,
     EvaluateRegistration source target max_correspondence_distance
       transformation = ([], Fatal msg)) /\
  (exists msg,
     RegistrationICP source target max_correspondence_distance transformation
       estimation criteria = ([], Fatal msg)).
Proof.
  intros Hbad. apply invalid_inputs_fatal.
  intros (Hs & Ht & Hd & Hshape & Hdev & Hty).
  destruct Hbad as [H|[H|[H|[H|[H|[H|H]]]]]]; apply H; congruence.
Qed.

(** C10: when the points of the source, the points of the target or the
    transformation are not [Float32], [EvaluateRegistration] and
    [RegistrationICP] end in a fatal error with an empty trace, also when
    the three agree on another precision and on the device. *)
Theorem only_Float32_is_accepted (source target : PointCloud Point)
    (max_correspondence_distance : F64.t) (transformation : Tensor Mat)
    (estimation : TransformationEstimation Point Mat)
    (criteria : ICPConvergenceCriteria) :
  pc_dtype source <> Float32 \/ pc_dtype target <> Float32 \/
  dtype_ transformation <> Float32 ->
  (exists msg,
     EvaluateRegistration source target max_correspondence_distance
       transformation = ([], Fatal msg)) /\
  (exists msg,
     RegistrationICP source target max_correspondence_distance transformation
       estimation criteria = ([], Fatal msg)).
Proof.
  intros Hbad. apply invalid_inputs_fatal.
  intros (Hs & Ht & Hd & Hshape & Hdev & Hty).
  destruct Hbad as [H|[H|H]]; apply H; assumption.
Qed.

End EvaluationClaims.

(* ================================================================= *)
(** ** The two searches over exact distances *)

Lemma Qle_bool_square (l d : Q) :
  (0 <= l)%Q -> (0 < d)%Q -> Qle_bool (l * l) (d * d) = Qle_bool l d.
Proof.
  intros Hl Hd. apply eq_true_iff_eq. rewrite !Qle_bool_iff.
  destruct l as [nl dl], d as [nd dd].
  unfold Qle, Qlt, Qmult in *. simpl in *.
  rewrite !Pos2Z.inj_mul.
  assert (0 < Z.pos dl)%Z by apply Pos2Z.is_pos.
  assert (0 < Z.pos dd)%Z by apply Pos2Z.is_pos.
  split; intros Hle; nia.
Qed.

(** In every arithmetic, that of the code included, the two searches
    select the same source points with the same target indices exactly when
    the two queries of the index are consistent at the cutoff, point by
    point: where the exact-nearest distance passes the test against the
    cutoff the radius query finds the same target, and where it does not
    the radius query finds none. *)
Lemma searches_agree_pointwise {Point D R : Type} `{Cutoff D R}
    (target_nns : NearestNeighborSearch Point D R) (points : list Point)
    (d : R) :
  (forall p, In p points ->
     if le_scalar (snd (knn_query target_nns p)) d
     then fst (hybrid_query target_nns (mul_cutoff d d) p)
            = fst (knn_query target_nns p) /\
          fst (knn_query target_nns p) <> (-1)%Z
     else fst (hybrid_query target_nns (mul_cutoff d d) p) = (-1)%Z) <->
  select_bool (knn_correspondences target_nns points d) =
  select_bool (hybrid_correspondences target_nns points d) /\
  corres_set (knn_correspondences target_nns points d) =
  corres_set (hybrid_correspondences target_nns points d).
Proof.
  unfold knn_correspondences, hybrid_correspondences, KnnSearch, HybridSearch,
    Le, Ne.
  simpl. rewrite !map_map.
  induction points as [|p points IH]; simpl.
  - split; [intros _; split; reflexivity|intros _ q []].
  - destruct (le_scalar (snd (knn_query target_nns p)) d) eqn:Hle.
    + split.
      * intros Hall. pose proof (Hall p (or_introl eq_refl)) as Hp.
        rewrite Hle in Hp. destruct Hp as [Hsame Hfound].
        destruct (proj1 IH) as [IHmask IHset].
        { intros q Hq. apply Hall. right. assumption. }
        rewrite Hsame.
        replace (fst (knn_query target_nns p) =? -1)%Z with false
          by (symmetry; apply Z.eqb_neq; assumption).
        simpl. rewrite IHset, IHmask. split; reflexivity.
      * intros [Hmask Hset].
        destruct (fst (hybrid_query target_nns (mul_cutoff d d) p) =? -1)%Z
          eqn:Hfound; simpl in Hmask, Hset; [discriminate|].
        injection Hmask as Hmask. injection Hset as Hhead Hset.
        intros q [<-|Hq].
        -- rewrite Hle. apply Z.eqb_neq in Hfound.
           split; [congruence|congruence].
        -- apply (proj2 IH); [split; assumption|assumption].
    + split.
      * intros Hall. pose proof (Hall p (or_introl eq_refl)) as Hnone.
        rewrite Hle in Hnone. rewrite Hnone. simpl.
        destruct (proj1 IH) as [IHmask IHset].
        { intros q Hq. apply Hall. right. assumption. }
        rewrite IHset, IHmask. split; reflexivity.
      * intros [Hmask Hset].
        destruct (fst (hybrid_query target_nns (mul_cutoff d d) p) =? -1)%Z
          eqn:Hfound; simpl in Hmask, Hset; [|discriminate].
        injection Hmask as Hmask.
        intros q [<-|Hq].
        -- rewrite Hle. apply Z.eqb_eq. assumption.
        -- apply (proj2 IH); [split; assumption|assumption].
Qed.


(* ================================================================= *)
(** * Runs on the line *)

Module LineRuns.
Import Line.

(** Two of three source points have a target within the cutoff 5, both at
    the squared distance 9: fitness 2/3 and rmse 3. *)
Example evaluation_on_the_line :
  outcome (EvaluateRegistration source target cutoff identity) =
  Ok {| transformation_ := identity;
        correspondence_set_ := [0; 1]%Z;
        correspondence_select_bool_ := [true; true; false];
        inlier_rmse_ := F64.of_Z 3;
        fitness_ := F64.of_F32 (F32.div (F32.of_Z 2) (F32.of_Z 3)) |}.
Proof. vm_compute. reflexivity. Qed.

(** With the estimator that moves the first matched point onto its target
    the first update brings the rmse from 3 to 0 and the second changes
    nothing: both deltas are below 1/2 and the loop stops after 2 of its 5
    iterations. *)
Example icp_stops_early :
  estimator_calls
    (trace (RegistrationICP (cloud [0; 10]%Z) target cutoff identity
              first_pair (criteria 5))) = 2.
Proof. vm_compute. reflexivity. Qed.

(** A point at the distance 1 and the cutoff -3: the exact-nearest search
    drops it, the radius search run with 9 keeps it. *)
Example negative_cutoff_searches_differ :
  select_bool (knn_correspondences origin_index [1]%Z (-3)%Q) = [false] /\
  select_bool (hybrid_correspondences origin_index [1]%Z (-3)%Q) = [true].
Proof. split; reflexivity. Qed.

Lemma line_inputs_valid (points : list Z) (a b : Z) :
  valid_inputs (cloud points) target (affine a b).
Proof. repeat split. Qed.

(** The update [x |-> 2 x + 1] after the initial [x |-> x + 3]: the result
    carries the update times the initial transformation, which is not the
    initial transformation times the update. *)
Lemma update_is_left_composed_witness :
  let run := RegistrationICP (cloud [0; 10]%Z) target cutoff (affine 1 3)
               double_and_shift (criteria 1) in
  exists r,
    outcome run = Ok r /\
    updates (trace run) = [affine 2 1] /\
    transforms (trace run) = [affine 1 3; affine 2 1] /\
    transformation_ r = Matmul (affine 2 1) (affine 1 3) /\
    transformation_ r <> Matmul (affine 1 3) (affine 2 1).
Proof.
  intros run.
  destruct (outcome run) as [r|msg] eqn:Hout;
    [|vm_compute in Hout; discriminate].
  exists r.
  destruct (update_is_left_composed (cloud [0; 10]%Z) target cutoff
              (affine 1 3) double_and_shift (criteria 1) Hout)
    as (Htransforms & _ & _ & _ & Hcompose).
  fold run in Htransforms, Hcompose.
  assert (Hupdates : updates (trace run) = [affine 2 1])
    by (vm_compute; reflexivity).
  rewrite Hupdates in Htransforms, Hcompose.
  repeat split; auto.
  rewrite Hcompose. vm_compute. discriminate.
Defined.


Lemma short_circuit_result_witness :
  exists r,
    GetRegistrationResultAndCorrespondences source target (index [3; 13]%Z)
      F64.zero identity =
    ([EvEvaluate source identity; EvResult r], Ok r) /\
    transformation_ r = identity /\
    correspondence_select_bool_ r = [] /\
    correspondence_set_ r = [] /\
    fitness_ r = F64.zero /\
    inlier_rmse_ r = F64.zero /\
    filter is_search
      (trace (GetRegistrationResultAndCorrespondences source target
                (index [3; 13]%Z) F64.zero identity)) = [].
Proof.
  apply (short_circuit_result (index [3; 13]%Z) F64.zero).
  - apply line_inputs_valid.
  - reflexivity.
Defined.

(** C3, as the spec has it, fails: with one source point and the cutoff 0
    the evaluation returns, and its mask has no entry at all. *)
Lemma short_circuit_mask_is_empty :
  exists r,
    outcome (GetRegistrationResultAndCorrespondences far_source target
               (index [3; 13]%Z) F64.zero identity) = Ok r /\
    num_points far_source = 1 /\
    List.length (correspondence_select_bool_ r) = 0 /\
    List.length (correspondence_select_bool_ r) <> num_points far_source.
Proof.
  eexists. split; [vm_compute; reflexivity|].
  repeat split. discriminate.
Defined.

(** C4: the code at a source whose only point has no target within the
    cutoff 5.  The inputs are accepted, [EvaluateRegistration] returns, and
    so does [RegistrationICP] without iterating; nothing is matched, the
    fitness is 0 and the rmse is the square root of 0 / 0: not a number, and
    not greater than or equal to 0. *)
Theorem no_match_rmse_is_nan :
  valid_inputs far_source target identity /\
  F64.ltb F64.zero cutoff = true /\
  exists r,
    outcome (EvaluateRegistration far_source target cutoff identity) = Ok r /\
    outcome (RegistrationICP far_source target cutoff identity first_pair
               (criteria 0)) = Ok r /\
    correspondence_set_ r = [] /\
    fitness_ r = F64.zero /\
    inlier_rmse_ r = S754_nan /\
    F64.leb F64.zero (inlier_rmse_ r) = false.
Proof.
  split; [apply line_inputs_valid|]. split; [reflexivity|].
  eexists. split; [vm_compute; reflexivity|]. repeat split.
Qed.

Lemma fitness_and_rmse_witness :
  let radius := F64.mul cutoff cutoff in
  matched_count (index [3; 13]%Z) radius (pc_points source) = 2 /\
  exists r,
    outcome (GetRegistrationResultAndCorrespondences source target
               (index [3; 13]%Z) cutoff identity) = Ok r /\
    List.length (correspondence_set_ r) = 2 /\
    fitness_ r = F64.of_F32 (F32.div (F32.of_Z 2) (F32.of_Z 3)) /\
    inlier_rmse_ r =
      F64.of_F32
        (F32.sqrt (F32.div (Sum [F32.of_Z 9; F32.of_Z 9]) (F32.of_Z 2))).
Proof.
  intros radius. split; [vm_compute; reflexivity|].
  destruct (fitness_and_rmse (source := source) (target := target)
              (index [3; 13]%Z) cutoff (transformation := identity))
    as (r & Hout & Hlen & Hfitness & Hrmse).
  - apply line_inputs_valid.
  - reflexivity.
  - reflexivity.
  - exists r. repeat split; assumption.
Defined.

Lemma correspondence_layout_witness :
  exists r,
    outcome (GetRegistrationResultAndCorrespondences source target
               (index [3; 13]%Z) cutoff identity) = Ok r /\
    correspondence_select_bool_ r = [true; true; false] /\
    correspondence_set_ r = [0; 1]%Z /\
    List.length (correspondence_set_ r)
      = count_true (correspondence_select_bool_ r) /\
    List.length (correspondence_select_bool_ r) = num_points source.
Proof.
  destruct (outcome (GetRegistrationResultAndCorrespondences source target
                       (index [3; 13]%Z) cutoff identity)) as [r|msg] eqn:Hout;
    [|vm_compute in Hout; discriminate].
  exists r.
  destruct (correspondence_layout source target (index [3; 13]%Z) cutoff
              identity Hout) as (Hlen & Hmask & _).
  vm_compute in Hout. injection Hout as <-.
  repeat split; assumption.
Defined.

(** C8, as the spec has it, fails: with two source points and a negative
    cutoff the evaluation returns a result whose mask has no entry. *)
Lemma negative_cutoff_mask_is_empty :
  exists r,
    outcome (GetRegistrationResultAndCorrespondences (cloud [0; 10]%Z) target
               (index [3; 13]%Z) (F64.of_Z (-1)) identity) = Ok r /\
    num_points (cloud [0; 10]%Z) = 2 /\
    List.length (correspondence_select_bool_ r) <> num_points (cloud [0; 10]%Z).
Proof.
  eexists. split; [vm_compute; reflexivity|].
  split; [reflexivity|]. discriminate.
Defined.

Lemma precondition_violation_witness :
  pc_device (cuda_cloud [0; 10]%Z) <> pc_device target /\
  (exists msg,
     EvaluateRegistration (cuda_cloud [0; 10]%Z) target cutoff identity
       = ([], Fatal msg)) /\
  (exists msg,
     RegistrationICP (cuda_cloud [0; 10]%Z) target cutoff identity first_pair
       (criteria 3) = ([], Fatal msg)).
Proof.
  split; [discriminate|].
  apply precondition_violation_is_fatal. left. discriminate.
Defined.

(** Source, target and transformation agree on [Float64] and on the
    device, and are refused. *)
Lemma only_Float32_is_accepted_witness :
  pc_dtype (cloud64 [0; 10]%Z) = pc_dtype (cloud64 [3; 13]%Z) /\
  pc_dtype (cloud64 [0; 10]%Z) = dtype_ identity64 /\
  pc_device (cloud64 [0; 10]%Z) = pc_device (cloud64 [3; 13]%Z) /\
  pc_device (cloud64 [0; 10]%Z) = device_ identity64 /\
  (exists msg,
     EvaluateRegistration (cloud64 [0; 10]%Z) (cloud64 [3; 13]%Z) cutoff
       identity64 = ([], Fatal msg)) /\
  (exists msg,
     RegistrationICP (cloud64 [0; 10]%Z) (cloud64 [3; 13]%Z) cutoff identity64
       first_pair (criteria 3) = ([], Fatal msg)).
Proof.
  repeat (split; [reflexivity|]).
  apply only_Float32_is_accepted. left. discriminate.
Defined.



End LineRuns.

(* ================================================================= *)
(** * Further properties of the code *)

Lemma bind_ret_r {E A} (m : M E A) : bind m (fun a => ret a) = m.
Proof.
  destruct m as [l [a|msg]]; simpl; [rewrite app_nil_r|]; reflexivity.
Qed.

Lemma trace_bind {E A B} (m : M E A) (k : A -> M E B) :
  trace (bind m k) =
  trace m ++ match outcome m with
             | Ok a => trace (k a)
             | Fatal _ => []
             end.
Proof.
  destruct m as [l [a|msg]]; simpl.
  - destruct (k a). reflexivity.
  - rewrite app_nil_r. reflexivity.
Qed.

Lemma outcome_bind {E A B} (m : M E A) (k : A -> M E B) :
  outcome (bind m k) =
  match outcome m with
  | Ok a => outcome (k a)
  | Fatal msg => Fatal msg
  end.
Proof.
  destruct m as [l [a|msg]]; simpl; [destruct (k a)|]; reflexivity.
Qed.

Section MoreTraceFacts.
Context {Point Mat : Type}.

Local Abbreviation Ev := (Event Point Mat).

Ltac by_events l :=
  induction l as [|[] l IH]; intros; simpl; try rewrite IH; auto.

Lemma constructions_app (l l' : list Ev) :
  constructions (l ++ l') = constructions l + constructions l'.
Proof. by_events l. Qed.

Lemma index_builds_app (l l' : list Ev) :
  index_builds (l ++ l') = index_builds l + index_builds l'.
Proof. by_events l. Qed.

Lemma searches_app (l l' : list Ev) :
  searches (l ++ l') = searches l ++ searches l'.
Proof. by_events l. Qed.

Lemma estimator_inputs_app (l l' : list Ev) :
  estimator_inputs (l ++ l') = estimator_inputs l ++ estimator_inputs l'.
Proof. by_events l. Qed.

Lemma debug_lines_app (l l' : list Ev) :
  debug_lines (l ++ l') = debug_lines l ++ debug_lines l'.
Proof. by_events l. Qed.

Lemma failed_calls_app (l l' : list Ev) :
  failed_calls (l ++ l') = failed_calls l ++ failed_calls l'.
Proof.
  induction l as [|e l IH]; simpl; [reflexivity|].
  destruct e as [ | | | | | |? ? [u|msg]| | | ]; simpl; rewrite ?IH;
    reflexivity.
Qed.

End MoreTraceFacts.

Section Shapes.
Context {Point Mat : Type} `{RT : Runtime Point Mat}.

Local Abbreviation Ev := (Event Point Mat).

(** The four ways an evaluation can go. *)
Lemma evaluation_cases (source target : PointCloud Point)
    (target_nns : NearestNeighborSearch Point F32.t F64.t)
    (max_correspondence_distance : F64.t) (transformation : Tensor Mat) :
  let run := GetRegistrationResultAndCorrespondences source target target_nns
               max_correspondence_distance transformation in
  (~ valid_inputs source target transformation /\
   exists msg, run = ([EvEvaluate source transformation], Fatal msg)) \/
  (valid_inputs source target transformation /\
   F64.leb max_correspondence_distance F64.zero = true /\
   run = ([EvEvaluate source transformation;
           EvResult (RegistrationResult_new transformation)],
          Ok (RegistrationResult_new transformation))) \/
  (valid_inputs source target transformation /\
   F64.leb max_correspondence_distance F64.zero = false /\
   hybrid_index target_nns = false /\
   run = ([EvEvaluate source transformation; EvHybridIndex false],
          Fatal index_is_not_set)) \/
  (valid_inputs source target transformation /\
   F64.leb max_correspondence_distance F64.zero = false /\
   hybrid_index target_nns = true /\
   exists r,
     run = ([EvEvaluate source transformation; EvHybridIndex true;
             EvHybridSearch (pc_points source)
               (F64.mul max_correspondence_distance
                  max_correspondence_distance);
             EvResult r], Ok r)).
Proof.
  cbv zeta.
  destruct (valid_inputs_dec source target transformation) as [Hvalid|Hbad].
  - right. rewrite (evaluation_valid _ _ Hvalid).
    destruct (F64.leb max_correspondence_distance F64.zero); [left; auto|].
    right. destruct (hybrid_index target_nns); [right|left]; eauto 10.
  - left. split; [assumption|]. apply evaluation_invalid. assumption.
Qed.

Section LoopShape.
Variable estimation : TransformationEstimation Point Mat.
Variable criteria : ICPConvergenceCriteria.
Variable target : PointCloud Point.
Variable target_nns : NearestNeighborSearch Point F32.t F64.t.
Variable max_correspondence_distance : F64.t.

Local Abbreviation loop :=
  (icp_loop estimation criteria target target_nns max_correspondence_distance).
Local Abbreviation evaluate :=
  (fun working cumulative =>
     GetRegistrationResultAndCorrespondences working target target_nns
       max_correspondence_distance cumulative).

(** The trace of the loop, one iteration unfolded. *)
Lemma icp_loop_S_trace todo i transformation working result corres :
  trace (loop (S todo) i transformation working result corres) =
  EvLogDebug i (fitness_ result) (inlier_rmse_ result)
  :: EvComputeTransformation working corres
       (ComputeTransformation estimation working target corres)
  :: match ComputeTransformation estimation working target corres with
     | Fatal _ => []
     | Ok u =>
         EvTransform u
         :: trace (evaluate (Transform u working) (Matmul u transformation))
         ++ match outcome (evaluate (Transform u working)
                             (Matmul u transformation)) with
            | Fatal _ => []
            | Ok current =>
                if converged criteria result current then []
                else trace (loop todo (i + 1)%Z (Matmul u transformation)
                              (Transform u working) current
                              (correspondence_select_bool_ current,
                               correspondence_set_ current))
            end
     end.
Proof.
  rewrite icp_loop_S.
  destruct (ComputeTransformation estimation working target corres)
    as [u|msg]; [|reflexivity].
  simpl.
  destruct (GetRegistrationResultAndCorrespondences (Transform u working)
              target target_nns max_correspondence_distance
              (Matmul u transformation)) as [tr [current|msg]];
    simpl; [|rewrite app_nil_r; reflexivity].
  destruct (converged criteria result current); simpl; [reflexivity|].
  destruct (icp_loop _ _ _ _ _ _ _ _ _ _ _). reflexivity.
Qed.

(** The outcome of the loop, one iteration unfolded. *)
Lemma icp_loop_S_outcome todo i transformation working result corres :
  outcome (loop (S todo) i transformation working result corres) =
  match ComputeTransformation estimation working target corres with
  | Fatal msg => Fatal msg
  | Ok u =>
      match outcome (evaluate (Transform u working)
                       (Matmul u transformation)) with
      | Fatal msg => Fatal msg
      | Ok current =>
          if converged criteria result current then Ok current
          else outcome (loop todo (i + 1)%Z (Matmul u transformation)
                          (Transform u working) current
                          (correspondence_select_bool_ current,
                           correspondence_set_ current))
      end
  end.
Proof.
  rewrite icp_loop_S.
  destruct (ComputeTransformation estimation working target corres)
    as [u|msg]; [|reflexivity].
  simpl.
  destruct (GetRegistrationResultAndCorrespondences (Transform u working)
              target target_nns max_correspondence_distance
              (Matmul u transformation)) as [tr [current|msg]];
    simpl; [|reflexivity].
  destruct (converged criteria result current); simpl; [reflexivity|].
  destruct (icp_loop _ _ _ _ _ _ _ _ _ _ _). reflexivity.
Qed.

End LoopShape.

(** A registration on accepted inputs: the construction of the index, the
    initial transform, the initial evaluation and the loop. *)
Lemma RegistrationICP_trace (source target : PointCloud Point)
    (max_correspondence_distance : F64.t) (init : Tensor Mat)
    (estimation : TransformationEstimation Point Mat)
    (criteria : ICPConvergenceCriteria) :
  valid_inputs source target init ->
  let nns := NearestNeighborSearch_new (pc_points target) in
  let first := GetRegistrationResultAndCorrespondences (Transform init source)
                 target nns max_correspondence_distance init in
  trace (RegistrationICP source target max_correspondence_distance init
           estimation criteria) =
  EvNearestNeighborSearch (pc_points target) :: EvTransform init
  :: trace first
  ++ match outcome first with
     | Fatal _ => []
     | Ok r0 =>
         trace (icp_loop estimation criteria target nns
                  max_correspondence_distance
                  (Z.to_nat (max_iteration_ criteria)) 0%Z init
                  (Transform init source) r0
                  (correspondence_select_bool_ r0, correspondence_set_ r0))
     end.
Proof.
  intros Hvalid nns first.
  rewrite (RegistrationICP_valid _ _ _ Hvalid).
  rewrite !trace_bind. reflexivity.
Qed.

Lemma RegistrationICP_outcome (source target : PointCloud Point)
    (max_correspondence_distance : F64.t) (init : Tensor Mat)
    (estimation : TransformationEstimation Point Mat)
    (criteria : ICPConvergenceCriteria) :
  valid_inputs source target init ->
  let nns := NearestNeighborSearch_new (pc_points target) in
  let first := GetRegistrationResultAndCorrespondences (Transform init source)
                 target nns max_correspondence_distance init in
  outcome (RegistrationICP source target max_correspondence_distance init
             estimation criteria) =
  match outcome first with
  | Fatal msg => Fatal msg
  | Ok r0 =>
      outcome (icp_loop estimation criteria target nns
                 max_correspondence_distance
                 (Z.to_nat (max_iteration_ criteria)) 0%Z init
                 (Transform init source) r0
                 (correspondence_select_bool_ r0, correspondence_set_ r0))
  end.
Proof.
  intros Hvalid nns first.
  rewrite (RegistrationICP_valid _ _ _ Hvalid).
  rewrite !outcome_bind. reflexivity.
Qed.

Lemma EvaluateRegistration_valid (source target : PointCloud Point)
    (max_correspondence_distance : F64.t) (transformation : Tensor Mat) :
  valid_inputs source target transformation ->
  EvaluateRegistration source target max_correspondence_distance
    transformation =
  (emit (EvNearestNeighborSearch (pc_points target)) ;;
   emit (EvTransform transformation) ;;
   GetRegistrationResultAndCorrespondences (Transform transformation source)
     target (NearestNeighborSearch_new (pc_points target))
     max_correspondence_distance transformation).
Proof.
  intros Hvalid. unfold EvaluateRegistration.
  rewrite (check_inputs_valid Hvalid), bind_ret_l. reflexivity.
Qed.

End Shapes.

(* ================================================================= *)
(** ** The convergence test *)

Lemma F64_abs_below (x threshold : F64.t) :
  F64.ltb (F64.abs x) threshold = true ->
  F64.ltb F64.zero threshold = true /\ x <> S754_nan.
Proof.
  unfold F64.ltb, F64.abs, F64.zero, SFltb.
  destruct x as [sx|sx| |sx mx ex], threshold as [st|st| |st mt et];
    simpl; try discriminate; destruct st; simpl; try discriminate;
    intros _; split; congruence.
Qed.

Lemma F64_sub_not_nan (a b : F64.t) :
  F64.sub a b <> S754_nan -> a <> S754_nan /\ b <> S754_nan.
Proof.
  unfold F64.sub. intros Hsub. split; intros ->; apply Hsub.
  - reflexivity.
  - destruct a; reflexivity.
Qed.

Lemma loop_results_never {Mat}
    (test : RegistrationResult Mat -> RegistrationResult Mat -> bool) :
  (forall a b, test a b = false) ->
  forall todo previous rs,
    loop_results test todo previous rs -> List.length rs = todo.
Proof.
  intros Hnever. induction todo as [|todo IH]; intros previous [|current rs];
    simpl; try contradiction; auto.
  rewrite Hnever. intros Hloop. f_equal. apply (IH current). assumption.
Qed.

Section Convergence.
Context {Point Mat : Type} `{RT : Runtime Point Mat}.

(** The test can only succeed against thresholds that are greater than 0,
    and on four metrics that are numbers: a threshold that is 0, negative
    or not a number, or a fitness or rmse that is not a number, keeps the
    loop going. *)
Theorem converged_needs_positive_thresholds
    (criteria : ICPConvergenceCriteria)
    (backup result : RegistrationResult Mat) :
  converged criteria backup result = true ->
  F64.ltb F64.zero (relative_fitness_ criteria) = true /\
  F64.ltb F64.zero (relative_rmse_ criteria) = true /\
  fitness_ backup <> S754_nan /\ fitness_ result <> S754_nan /\
  inlier_rmse_ backup <> S754_nan /\ inlier_rmse_ result <> S754_nan.
Proof.
  unfold converged, fitness_delta_below, rmse_delta_below.
  rewrite andb_true_iff. intros [Hf Hr].
  apply F64_abs_below in Hf, Hr.
  destruct Hf as [Hf Hfs], Hr as [Hr Hrs].
  apply F64_sub_not_nan in Hfs, Hrs. tauto.
Qed.

(** With a fitness threshold or an rmse threshold that is not greater than
    0, a registration that returns has used all its iterations. *)
Theorem no_early_stop_without_positive_thresholds
    (source target : PointCloud Point)
    (max_correspondence_distance : F64.t) (init : Tensor Mat)
    (estimation : TransformationEstimation Point Mat)
    (criteria : ICPConvergenceCriteria) (r : RegistrationResult Mat) :
  F64.ltb F64.zero (relative_fitness_ criteria) = false \/
  F64.ltb F64.zero (relative_rmse_ criteria) = false ->
  outcome (RegistrationICP source target max_correspondence_distance init
             estimation criteria) = Ok r ->
  estimator_calls
    (trace (RegistrationICP source target max_correspondence_distance init
              estimation criteria))
  = Z.to_nat (max_iteration_ criteria).
Proof.
  intros Hthreshold Hout.
  assert (Hnever : forall a b : RegistrationResult Mat,
             converged criteria a b = false).
  { intros a b. destruct (converged criteria a b) eqn:Hconv; [|reflexivity].
    unfold converged, fitness_delta_below, rmse_delta_below in Hconv.
    rewrite andb_true_iff in Hconv. destruct Hconv as [Hf Hr].
    apply F64_abs_below in Hf, Hr. destruct Hthreshold; intuition congruence. }
  destruct (valid_inputs_dec source target init) as [Hvalid|Hbad].
  - destruct (RegistrationICP_spec max_correspondence_distance estimation
                criteria Hvalid) as [_ Hok].
    destruct (Hok r Hout) as (_ & _ & _ & _ & r0 & rs & _ & Hlen & _ & Hloop).
    rewrite <- Hlen. apply (loop_results_never _ Hnever _ _ _ Hloop).
  - destruct (invalid_inputs_fatal max_correspondence_distance estimation
                criteria Hbad) as [_ [msg Hmsg]].
    rewrite Hmsg in Hout. discriminate.
Qed.

End Convergence.

(* ================================================================= *)
(** ** What a registration does with the index *)

Section IndexUse.
Context {Point Mat : Type} `{RT : Runtime Point Mat}.

Local Abbreviation Ev := (Event Point Mat).

Lemma evaluation_no_knn (source target : PointCloud Point)
    (target_nns : NearestNeighborSearch Point F32.t F64.t)
    (max_correspondence_distance : F64.t) (transformation : Tensor Mat) :
  filter is_knn
    (trace (GetRegistrationResultAndCorrespondences source target target_nns
              max_correspondence_distance transformation)) = [].
Proof.
  destruct (evaluation_cases source target target_nns
              max_correspondence_distance transformation)
    as [(_ & msg & ->)|[(_ & _ & ->)|[(_ & _ & _ & ->)|(_ & _ & _ & r & ->)]]];
    reflexivity.
Qed.

Lemma icp_loop_no_knn (estimation : TransformationEstimation Point Mat)
    (criteria : ICPConvergenceCriteria) (target : PointCloud Point)
    (target_nns : NearestNeighborSearch Point F32.t F64.t)
    (max_correspondence_distance : F64.t) :
  forall todo i transformation working result corres,
    filter is_knn
      (trace (icp_loop estimation criteria target target_nns
                max_correspondence_distance todo i transformation working
                result corres)) = [].
Proof.
  induction todo as [|todo IH]; intros; [reflexivity|].
  rewrite icp_loop_S_trace. simpl.
  destruct (ComputeTransformation estimation working target corres)
    as [u|msg]; [|reflexivity].
  simpl. rewrite filter_app, evaluation_no_knn. simpl.
  destruct (outcome _) as [current|msg]; [|reflexivity].
  destruct (converged criteria result current); [reflexivity|apply IH].
Qed.

(** The exact-nearest search is dead code: whatever the inputs, neither
    public function builds the exact-nearest index or runs an exact-nearest
    search. *)
Theorem knn_search_is_never_run (source target : PointCloud Point)
    (max_correspondence_distance : F64.t) (transformation : Tensor Mat)
    (estimation : TransformationEstimation Point Mat)
    (criteria : ICPConvergenceCriteria) :
  filter is_knn
    (trace (EvaluateRegistration source target max_correspondence_distance
              transformation)) = [] /\
  filter is_knn
    (trace (RegistrationICP source target max_correspondence_distance
              transformation estimation criteria)) = [].
Proof.
  destruct (valid_inputs_dec source target transformation) as [Hvalid|Hbad].
  - split.
    + rewrite (EvaluateRegistration_valid _ Hvalid), !trace_bind. simpl.
      apply evaluation_no_knn.
    + rewrite (RegistrationICP_trace _ _ _ Hvalid). simpl.
      rewrite filter_app, evaluation_no_knn. simpl.
      destruct (outcome _) as [r0|msg]; [apply icp_loop_no_knn|reflexivity].
  - destruct (invalid_inputs_fatal max_correspondence_distance estimation
                criteria Hbad) as [[msg ->] [msg' ->]].
    split; reflexivity.
Qed.

(** What a returning evaluation does with the index. *)
Lemma evaluation_index_use (source target : PointCloud Point)
    (target_nns : NearestNeighborSearch Point F32.t F64.t)
    (max_correspondence_distance : F64.t) (transformation : Tensor Mat)
    (r : RegistrationResult Mat) :
  let run := GetRegistrationResultAndCorrespondences source target target_nns
               max_correspondence_distance transformation in
  outcome run = Ok r ->
  constructions (trace run) = 0 /\
  evaluations (trace run) = [(source, transformation)] /\
  searches (trace run) =
    (if F64.leb max_correspondence_distance F64.zero then []
     else [(pc_points source,
            F64.mul max_correspondence_distance
              max_correspondence_distance)]) /\
  index_builds (trace run) = List.length (searches (trace run)).
Proof.
  cbv zeta.
  destruct (evaluation_cases source target target_nns
              max_correspondence_distance transformation)
    as [(_ & msg & ->)|[(_ & Hle & ->)
        |[(_ & Hle & _ & ->)|(_ & Hle & _ & r' & ->)]]];
    simpl; try discriminate; rewrite Hle; intros _; repeat split.
Qed.

Lemma icp_loop_index_use (estimation : TransformationEstimation Point Mat)
    (criteria : ICPConvergenceCriteria) (target : PointCloud Point)
    (target_nns : NearestNeighborSearch Point F32.t F64.t)
    (max_correspondence_distance : F64.t) :
  forall todo i transformation working result corres r,
    let run := icp_loop estimation criteria target target_nns
                 max_correspondence_distance todo i transformation working
                 result corres in
    outcome run = Ok r ->
    constructions (trace run) = 0 /\
    searches (trace run) =
      (if F64.leb max_correspondence_distance F64.zero then []
       else map (fun ev => (pc_points (fst ev),
                            F64.mul max_correspondence_distance
                              max_correspondence_distance))
              (evaluations (trace run))) /\
    index_builds (trace run) = List.length (searches (trace run)).
Proof.
  induction todo as [|todo IH]; intros i transformation working result corres
    r; cbv zeta.
  - simpl. intros _. destruct (F64.leb _ _); repeat split.
  - rewrite icp_loop_S_trace, icp_loop_S_outcome.
    destruct (ComputeTransformation estimation working target corres)
      as [u|msg]; [|discriminate].
    pose proof (evaluation_index_use (Transform u working) target target_nns
                  max_correspondence_distance (Matmul u transformation))
      as Heval.
    cbv zeta in Heval.
    destruct (outcome (GetRegistrationResultAndCorrespondences
                         (Transform u working) target target_nns
                         max_correspondence_distance (Matmul u transformation)))
      as [current|msg]; [|discriminate].
    destruct (Heval current eq_refl) as (Hc & He & Hs & Hb).
    simpl.
    rewrite constructions_app, searches_app, evaluations_app,
      index_builds_app, length_app, Hc, He, Hb, Hs.
    destruct (converged criteria result current).
    + intros _. simpl. rewrite !app_nil_r.
      destruct (F64.leb _ _); repeat split.
    + intros Hout. destruct (IH _ _ _ _ _ _ Hout) as (IHc & IHs & IHb).
      rewrite IHc, IHb, IHs.
      destruct (F64.leb _ _); repeat split.
Qed.

(** A registration that returns has constructed one index.  With a cutoff
    that is not [<= 0] it has called [HybridIndex()] and run one radius
    search for every evaluation, the initial one included: each on the
    points of the working cloud of that evaluation, with the square of the
    cutoff as radius.  With a cutoff [<= 0] it has neither called
    [HybridIndex()] nor searched. *)
Theorem index_is_built_for_every_evaluation
    (source target : PointCloud Point)
    (max_correspondence_distance : F64.t) (init : Tensor Mat)
    (estimation : TransformationEstimation Point Mat)
    (criteria : ICPConvergenceCriteria) (r : RegistrationResult Mat) :
  let run := RegistrationICP source target max_correspondence_distance init
               estimation criteria in
  outcome run = Ok r ->
  constructions (trace run) = 1 /\
  List.length (evaluations (trace run)) = S (estimator_calls (trace run)) /\
  searches (trace run) =
    (if F64.leb max_correspondence_distance F64.zero then []
     else map (fun ev => (pc_points (fst ev),
                          F64.mul max_correspondence_distance
                            max_correspondence_distance))
            (evaluations (trace run))) /\
  index_builds (trace run) = List.length (searches (trace run)).
Proof.
  cbv zeta. intros Hout.
  destruct (valid_inputs_dec source target init) as [Hvalid|Hbad].
  - assert (Hcount :
      List.length (evaluations
        (trace (RegistrationICP source target max_correspondence_distance
                  init estimation criteria)))
      = S (estimator_calls
             (trace (RegistrationICP source target
                       max_correspondence_distance init estimation
                       criteria)))).
    { destruct (RegistrationICP_spec max_correspondence_distance estimation
                  criteria Hvalid) as [_ Hok].
      destruct (Hok r Hout) as (_ & Hevals & Hlen & _).
      rewrite Hevals. simpl. rewrite trajectory_length, Hlen. reflexivity. }
    split; [|split; [exact Hcount|]]; clear Hcount;
      rewrite (RegistrationICP_outcome _ _ _ Hvalid) in Hout;
      rewrite (RegistrationICP_trace _ _ _ Hvalid); cbv zeta in Hout |- *;
      pose proof (evaluation_index_use (Transform init source) target
                    (NearestNeighborSearch_new (pc_points target))
                    max_correspondence_distance init) as Heval;
      cbv zeta in Heval;
      destruct (outcome (GetRegistrationResultAndCorrespondences
                           (Transform init source) target
                           (NearestNeighborSearch_new (pc_points target))
                           max_correspondence_distance init))
        as [r0|msg]; try discriminate;
      destruct (Heval r0 eq_refl) as (Hc & He & Hs & Hb);
      destruct (icp_loop_index_use _ _ _ _ _ _ _ _ _ _ _ Hout)
        as (Lc & Ls & Lb); simpl.
    + rewrite constructions_app, Hc, Lc. reflexivity.
    + rewrite searches_app, evaluations_app, index_builds_app, length_app,
        He, Hb, Hs, Lb, Ls.
      destruct (F64.leb _ _); repeat split.
  - destruct (invalid_inputs_fatal max_correspondence_distance estimation
                criteria Hbad) as [_ [msg Hmsg]].
    rewrite Hmsg in Hout. discriminate.
Qed.

End IndexUse.

(* ================================================================= *)
(** ** What the loop passes on *)

Section LoopData.
Context {Point Mat : Type} `{RT : Runtime Point Mat}.

Local Abbreviation Ev := (Event Point Mat).

(** An evaluation calls no estimator and writes no debug line; it records
    its arguments, and its result when it returns. *)
Lemma evaluation_quiet (source target : PointCloud Point)
    (target_nns : NearestNeighborSearch Point F32.t F64.t)
    (max_correspondence_distance : F64.t) (transformation : Tensor Mat) :
  let run := GetRegistrationResultAndCorrespondences source target target_nns
               max_correspondence_distance transformation in
  estimator_inputs (trace run) = [] /\
  debug_lines (trace run) = [] /\
  failed_calls (trace run) = [] /\
  estimator_calls (trace run) = 0 /\
  evaluations (trace run) = [(source, transformation)] /\
  results (trace run) = match outcome run with
                        | Ok r => [r]
                        | Fatal _ => []
                        end /\
  match outcome run with
  | Ok r => transformation_ r = transformation
  | Fatal _ => True
  end.
Proof.
  cbv zeta.
  destruct (evaluation_cases source target target_nns
              max_correspondence_distance transformation)
    as [(_ & msg & ->)|[(_ & _ & ->)|[(_ & _ & _ & ->)|(Hv & Hle & Hi & r & Hr)]]];
    try (simpl; repeat split; reflexivity).
  rewrite Hr. simpl. repeat split.
  rewrite (evaluation_valid _ _ Hv), Hle, Hi in Hr.
  injection Hr as <-. reflexivity.
Qed.

Section Loop.
Variable estimation : TransformationEstimation Point Mat.
Variable criteria : ICPConvergenceCriteria.
Variable target : PointCloud Point.
Variable target_nns : NearestNeighborSearch Point F32.t F64.t.
Variable max_correspondence_distance : F64.t.

Local Abbreviation loop :=
  (icp_loop estimation criteria target target_nns max_correspondence_distance).
Local Abbreviation evaluate :=
  (fun working cumulative =>
     GetRegistrationResultAndCorrespondences working target target_nns
       max_correspondence_distance cumulative).

(** The trace readers on the trace of an iteration that goes on. *)
Ltac open_iteration u current Hcall Hout Hconv :=
  rewrite icp_loop_S_trace;
  destruct (ComputeTransformation estimation _ target _) as [u|?] eqn:Hcall;
  [ match goal with
    | |- context [outcome (GetRegistrationResultAndCorrespondences ?s ?t ?n ?d ?c)] =>
        let Hq := fresh "Hquiet" in
        pose proof (evaluation_quiet s t n d c) as Hq; cbv zeta in Hq;
        destruct (outcome (GetRegistrationResultAndCorrespondences s t n d c))
          as [current|?] eqn:Hout;
        [ destruct (converged criteria _ current) eqn:Hconv | ];
        destruct Hq as (Hq1 & Hq2 & Hq3 & Hq4 & Hq5 & Hq6 & Hq7)
    end
  | ];
  simpl;
  rewrite ?estimator_inputs_app, ?debug_lines_app, ?failed_calls_app,
    ?estimator_calls_app, ?evaluations_app, ?results_app, ?updates_app;
  try match goal with
      | H : estimator_inputs _ = [] |- _ => rewrite ?H
      end;
  try match goal with
      | H : debug_lines _ = [] |- _ => rewrite ?H
      end;
  try match goal with
      | H : failed_calls _ = [] |- _ => rewrite ?H
      end;
  try match goal with
      | H : evaluations _ = [_] |- _ => rewrite ?H
      end;
  try match goal with
      | H : results _ = _ |- _ => rewrite ?H
      end;
  simpl; rewrite ?app_nil_r.

Lemma icp_loop_estimator_inputs :
  forall todo i transformation working result corres,
    corres = (correspondence_select_bool_ result, correspondence_set_ result) ->
    forall j src c,
      nth_error
        (estimator_inputs
           (trace (loop todo i transformation working result corres))) j
        = Some (src, c) ->
      exists cumulative r,
        nth_error
          ((working, transformation)
           :: evaluations
                (trace (loop todo i transformation working result corres))) j
          = Some (src, cumulative) /\
        nth_error
          (result
           :: results
                (trace (loop todo i transformation working result corres))) j
          = Some r /\
        c = (correspondence_select_bool_ r, correspondence_set_ r).
Proof.
  induction todo as [|todo IH];
    intros i transformation working result corres Hcorres j src c.
  - destruct j; discriminate.
  - open_iteration u current Hcall Hout Hconv.
    all: destruct j as [|j];
      [ intros Hj; injection Hj as <- <-; exists transformation, result;
        repeat split; assumption
      | try (destruct j; discriminate) ].
    simpl. intros Hj.
    apply (IH (i + 1)%Z (Matmul u transformation) (Transform u working)
              current _ eq_refl j src c Hj).
Qed.

Lemma icp_loop_debug_lines :
  forall todo i transformation working result corres,
    List.length
      (debug_lines (trace (loop todo i transformation working result corres)))
    = estimator_calls
        (trace (loop todo i transformation working result corres)) /\
    forall j i' fitness rmse,
      nth_error
        (debug_lines
           (trace (loop todo i transformation working result corres))) j
        = Some (i', fitness, rmse) ->
      i' = (i + Z.of_nat j)%Z /\
      exists r,
        nth_error
          (result
           :: results
                (trace (loop todo i transformation working result corres))) j
          = Some r /\
        fitness = fitness_ r /\ rmse = inlier_rmse_ r.
Proof.
  induction todo as [|todo IH]; intros i transformation working result corres.
  - split; [reflexivity|]. intros [|j]; discriminate.
  - open_iteration u current Hcall Hout Hconv.
    4: { split; [reflexivity|]. intros [|j] i' fitness rmse Hj;
           [|destruct j; discriminate].
         injection Hj as <- <- <-. split; [lia|exists result; repeat split]. }
    3: { split; [rewrite Hq4; reflexivity|].
         intros [|j] i' fitness rmse Hj; [|destruct j; discriminate].
         injection Hj as <- <- <-. split; [lia|exists result; repeat split]. }
    1: { split; [rewrite Hq4; reflexivity|].
         intros [|j] i' fitness rmse Hj; [|destruct j; discriminate].
         injection Hj as <- <- <-. split; [lia|exists result; repeat split]. }
    destruct (IH (i + 1)%Z (Matmul u transformation) (Transform u working)
                current (correspondence_select_bool_ current,
                         correspondence_set_ current)) as [IHlen IHnth].
    split; [rewrite Hq4, IHlen; reflexivity|].
    intros [|j] i' fitness rmse Hj.
    + injection Hj as <- <- <-. split; [lia|exists result; repeat split].
    + simpl in Hj. destruct (IHnth j i' fitness rmse Hj) as [Hi' Hr].
      split; [lia|exact Hr].
Qed.

Lemma icp_loop_results_of_evaluations :
  forall todo i transformation working result corres j r,
    nth_error
      (results (trace (loop todo i transformation working result corres))) j
      = Some r ->
    exists w c,
      nth_error
        (evaluations
           (trace (loop todo i transformation working result corres))) j
        = Some (w, c) /\
      outcome (evaluate w c) = Ok r.
Proof.
  induction todo as [|todo IH];
    intros i transformation working result corres j r.
  - destruct j; discriminate.
  - open_iteration u current Hcall Hout Hconv.
    4: { destruct j; discriminate. }
    3: { destruct j; discriminate. }
    + intros Hj. destruct j as [|j]; [|destruct j; discriminate].
      injection Hj as <-. eexists _, _. split; [reflexivity|exact Hout].
    + intros Hj. destruct j as [|j].
      * injection Hj as <-. eexists _, _. split; [reflexivity|exact Hout].
      * simpl in Hj |- *. apply (IH _ _ _ _ _ _ _ Hj).
Qed.

Lemma icp_loop_failure :
  forall todo i transformation working result corres,
    failed_calls (trace (loop todo i transformation working result corres))
      = [] \/
    exists msg l src c,
      trace (loop todo i transformation working result corres)
        = l ++ [EvComputeTransformation src c (Fatal msg)] /\
      failed_calls (trace (loop todo i transformation working result corres))
        = [msg] /\
      outcome (loop todo i transformation working result corres) = Fatal msg.
Proof.
  induction todo as [|todo IH]; intros i transformation working result corres.
  - left. reflexivity.
  - rewrite icp_loop_S_outcome.
    open_iteration u current Hcall Hout Hconv; rewrite ?Hcall, ?Hout, ?Hconv.
    4: { right. eexists _, [_], _, _. repeat split. }
    1, 3: left; reflexivity.
    destruct (IH (i + 1)%Z (Matmul u transformation) (Transform u working)
                current (correspondence_select_bool_ current,
                         correspondence_set_ current))
      as [Hnone|(msg & l & src & c & Htrace & Hfailed & Hfatal)].
    + left. assumption.
    + right. rewrite Htrace, Hfatal.
      rewrite Htrace in Hfailed.
      eexists msg, (_ :: _ :: _ :: _ ++ l), src, c.
      repeat split.
      * simpl. rewrite <- app_assoc. reflexivity.
      * assumption.
Qed.

End Loop.
End LoopData.

(* ================================================================= *)
(** ** Whole runs, again *)

Section MoreRuns.
Context {Point Mat : Type} `{RT : Runtime Point Mat}.

Local Abbreviation Ev := (Event Point Mat).

(** Every call of the estimator gets the working cloud of the latest
    evaluation and the mask and the target indices of its result: the
    [j]-th call (from 0) gets those of the [j]-th evaluation. *)
Theorem estimator_gets_latest_correspondences
    (source target : PointCloud Point)
    (max_correspondence_distance : F64.t) (init : Tensor Mat)
    (estimation : TransformationEstimation Point Mat)
    (criteria : ICPConvergenceCriteria)
    (j : nat) (src : PointCloud Point) (c : list bool * list Z) :
  let run := RegistrationICP source target max_correspondence_distance init
               estimation criteria in
  nth_error (estimator_inputs (trace run)) j = Some (src, c) ->
  exists cumulative r,
    nth_error (evaluations (trace run)) j = Some (src, cumulative) /\
    nth_error (results (trace run)) j = Some r /\
    c = (correspondence_select_bool_ r, correspondence_set_ r).
Proof.
  cbv zeta.
  destruct (valid_inputs_dec source target init) as [Hvalid|Hbad].
  - rewrite (RegistrationICP_trace _ _ _ Hvalid). cbv zeta. simpl.
    rewrite estimator_inputs_app, evaluations_app, results_app.
    destruct (evaluation_quiet (Transform init source) target
                (NearestNeighborSearch_new (pc_points target))
                max_correspondence_distance init)
      as (Hq1 & _ & _ & _ & Hq5 & Hq6 & _).
    rewrite Hq1, Hq5, Hq6.
    destruct (outcome _) as [r0|msg]; [|destruct j; discriminate].
    apply icp_loop_estimator_inputs. reflexivity.
  - destruct (invalid_inputs_fatal max_correspondence_distance estimation
                criteria Hbad) as [_ [msg ->]].
    destruct j; discriminate.
Qed.

(** One debug line is written per call of the estimator.  Line [j] (from 0)
    carries the number [j] and the fitness and the rmse of the result the
    [j]-th update starts from: the metrics of the returned result are in no
    line unless a further iteration follows. *)
Theorem debug_lines_report_previous_result
    (source target : PointCloud Point)
    (max_correspondence_distance : F64.t) (init : Tensor Mat)
    (estimation : TransformationEstimation Point Mat)
    (criteria : ICPConvergenceCriteria) :
  let run := RegistrationICP source target max_correspondence_distance init
               estimation criteria in
  List.length (debug_lines (trace run)) = estimator_calls (trace run) /\
  forall j i fitness rmse,
    nth_error (debug_lines (trace run)) j = Some (i, fitness, rmse) ->
    i = Z.of_nat j /\
    exists r,
      nth_error (results (trace run)) j = Some r /\
      fitness = fitness_ r /\ rmse = inlier_rmse_ r.
Proof.
  cbv zeta.
  destruct (valid_inputs_dec source target init) as [Hvalid|Hbad].
  - rewrite (RegistrationICP_trace _ _ _ Hvalid). cbv zeta. simpl.
    rewrite debug_lines_app, estimator_calls_app, results_app.
    destruct (evaluation_quiet (Transform init source) target
                (NearestNeighborSearch_new (pc_points target))
                max_correspondence_distance init)
      as (_ & Hq2 & _ & Hq4 & _ & Hq6 & _).
    rewrite Hq2, Hq4, Hq6.
    destruct (outcome _) as [r0|msg].
    + apply icp_loop_debug_lines.
    + split; [reflexivity|]. intros [|j]; discriminate.
  - destruct (invalid_inputs_fatal max_correspondence_distance estimation
                criteria Hbad) as [_ [msg ->]].
    split; [reflexivity|]. intros [|j]; discriminate.
Qed.

(** The result a registration returns is the evaluation of its own
    transformation: the last evaluation of the run was given the final
    working cloud and the returned transformation, and evaluating the two
    gives the returned mask, indices, fitness and rmse. *)
Theorem returned_result_belongs_to_returned_transformation
    (source target : PointCloud Point)
    (max_correspondence_distance : F64.t) (init : Tensor Mat)
    (estimation : TransformationEstimation Point Mat)
    (criteria : ICPConvergenceCriteria) (r : RegistrationResult Mat) :
  let run := RegistrationICP source target max_correspondence_distance init
               estimation criteria in
  outcome run = Ok r ->
  exists working,
    nth_error (evaluations (trace run)) (estimator_calls (trace run))
      = Some (working, transformation_ r) /\
    outcome (GetRegistrationResultAndCorrespondences working target
               (NearestNeighborSearch_new (pc_points target))
               max_correspondence_distance (transformation_ r)) = Ok r.
Proof.
  cbv zeta. intros Hout.
  destruct (valid_inputs_dec source target init) as [Hvalid|Hbad].
  - destruct (RegistrationICP_spec max_correspondence_distance estimation
                criteria Hvalid) as [_ Hok].
    destruct (Hok r Hout) as (_ & _ & _ & _ & r0 & rs & Hrs & Hlen & Hlast & _).
    assert (Hnth : nth_error
                     (results (trace (RegistrationICP source target
                                        max_correspondence_distance init
                                        estimation criteria)))
                     (estimator_calls
                        (trace (RegistrationICP source target
                                  max_correspondence_distance init
                                  estimation criteria))) = Some r).
    { rewrite Hrs, <- Hlen, nth_error_last. congruence. }
    clear Hrs Hlen Hlast Hok.
    rewrite (RegistrationICP_outcome _ _ _ Hvalid) in Hout.
    rewrite (RegistrationICP_trace _ _ _ Hvalid) in Hnth |- *.
    cbv zeta in Hout, Hnth |- *. simpl in Hnth |- *.
    rewrite estimator_calls_app, results_app in Hnth.
    rewrite estimator_calls_app, evaluations_app.
    pose proof (evaluation_quiet (Transform init source) target
                  (NearestNeighborSearch_new (pc_points target))
                  max_correspondence_distance init) as Hquiet.
    cbv zeta in Hquiet.
    destruct Hquiet as (_ & _ & _ & Hq4 & Hq5 & Hq6 & Hq7).
    rewrite Hq4, Hq6 in Hnth. rewrite Hq4, Hq5.
    destruct (outcome (GetRegistrationResultAndCorrespondences
                         (Transform init source) target
                         (NearestNeighborSearch_new (pc_points target))
                         max_correspondence_distance init))
      as [r0'|msg] eqn:Hfirst; [|discriminate].
    simpl in Hnth |- *.
    destruct (estimator_calls _) as [|k] eqn:Hk.
    + injection Hnth as <-. exists (Transform init source).
      rewrite Hq7. split; [reflexivity|exact Hfirst].
    + simpl in Hnth |- *.
      apply icp_loop_results_of_evaluations in Hnth.
      destruct Hnth as (w & c & Hev & Heval). cbv beta in Heval.
      pose proof (evaluation_quiet w target
                    (NearestNeighborSearch_new (pc_points target))
                    max_correspondence_distance c) as Hquiet.
      cbv zeta in Hquiet. rewrite Heval in Hquiet.
      destruct Hquiet as (_ & _ & _ & _ & _ & _ & Htransf).
      exists w. rewrite Htransf. split; assumption.
  - destruct (invalid_inputs_fatal max_correspondence_distance estimation
                criteria Hbad) as [_ [msg Hmsg]].
    rewrite Hmsg in Hout. discriminate.
Qed.

(** An exception of the estimator ends the registration: the failed call
    is the last event of the run, the run ends with the message of the
    estimator, and no other call of the estimator has failed before. *)
Theorem estimator_failure_ends_the_run
    (source target : PointCloud Point)
    (max_correspondence_distance : F64.t) (init : Tensor Mat)
    (estimation : TransformationEstimation Point Mat)
    (criteria : ICPConvergenceCriteria) (msg : string) :
  let run := RegistrationICP source target max_correspondence_distance init
               estimation criteria in
  In msg (failed_calls (trace run)) ->
  outcome run = Fatal msg /\
  failed_calls (trace run) = [msg] /\
  exists l src c,
    trace run = l ++ [EvComputeTransformation src c (Fatal msg)].
Proof.
  cbv zeta.
  destruct (valid_inputs_dec source target init) as [Hvalid|Hbad].
  - rewrite (RegistrationICP_trace _ _ _ Hvalid),
      (RegistrationICP_outcome _ _ _ Hvalid).
    cbv zeta. simpl. rewrite failed_calls_app.
    destruct (evaluation_quiet (Transform init source) target
                (NearestNeighborSearch_new (pc_points target))
                max_correspondence_distance init)
      as (_ & _ & Hq3 & _).
    rewrite Hq3. simpl.
    destruct (outcome _) as [r0|msg0]; [|intros []].
    destruct (icp_loop_failure estimation criteria target
                (NearestNeighborSearch_new (pc_points target))
                max_correspondence_distance
                (Z.to_nat (max_iteration_ criteria)) 0%Z init
                (Transform init source) r0
                (correspondence_select_bool_ r0, correspondence_set_ r0))
      as [Hnone|(msg' & l & src & c & Htrace & Hfailed & Hfatal)].
    + rewrite Hnone. intros [].
    + rewrite Hfailed, Hfatal, Htrace. intros [<-|[]].
      repeat split.
      eexists (_ :: _ :: _ ++ l), src, c.
      simpl. rewrite <- app_assoc. reflexivity.
  - destruct (invalid_inputs_fatal max_correspondence_distance estimation
                criteria Hbad) as [_ [msg' ->]].
    intros [].
Qed.

End MoreRuns.

(* ================================================================= *)
(** ** The public functions and the two searches *)

Section Searches.
Context {Point D R : Type} `{Cutoff D R}.

Lemma knn_correspondences_spec
    (target_nns : NearestNeighborSearch Point D R) (points : list Point)
    (max_correspondence_distance : R) :
  let keep := fun p =>
    le_scalar (snd (knn_query target_nns p)) max_correspondence_distance in
  let c := knn_correspondences target_nns points
             max_correspondence_distance in
  select_bool c = map keep points /\
  corres_set c
    = map (fun p => fst (knn_query target_nns p)) (filter keep points) /\
  dist_select c
    = map (fun p => snd (knn_query target_nns p)) (filter keep points).
Proof.
  unfold knn_correspondences, KnnSearch, Le. simpl.
  rewrite !map_map. repeat split.
  - apply (IndexGet_map_filter (fun p => fst (knn_query target_nns p))).
  - apply (IndexGet_map_filter (fun p => snd (knn_query target_nns p))).
Qed.

End Searches.

Section Public.
Context {Point Mat : Type} `{RT : Runtime Point Mat}.

Local Abbreviation Ev := (Event Point Mat).

(** The exact-nearest search on accepted inputs, with a positive cutoff and
    an index that is built: it keeps the source points whose returned
    distance is at most the cutoff as a [float]; the fitness is their share
    of the source points, and the rmse is the square root of the mean of
    the returned distances themselves: they are summed as they are, not
    squared. *)
Theorem knn_search_result (source target : PointCloud Point)
    (target_nns : NearestNeighborSearch Point F32.t F64.t)
    (max_correspondence_distance : F64.t) (transformation : Tensor Mat) :
  let keep := fun p =>
    F32.leb (snd (knn_query target_nns p))
            (F64.to_F32 max_correspondence_distance) in
  let kept := filter keep (pc_points source) in
  valid_inputs source target transformation ->
  F64.ltb F64.zero max_correspondence_distance = true ->
  knn_index target_nns = true ->
  GetCorrespondencesFromKNNSearch source target target_nns
    max_correspondence_distance transformation =
  ([EvKnnIndex true; EvKnnSearch (pc_points source)],
   Ok {| transformation_ := transformation;
         correspondence_set_ :=
           map (fun p => fst (knn_query target_nns p)) kept;
         correspondence_select_bool_ := map keep (pc_points source);
         inlier_rmse_ :=
           F64.of_F32
             (F32.sqrt
                (F32.div
                   (Sum (map (fun p => snd (knn_query target_nns p)) kept))
                   (F32.of_Z (Z.of_nat (List.length kept)))));
         fitness_ :=
           F64.of_F32
             (F32.div (F32.of_Z (Z.of_nat (List.length kept)))
                      (F32.of_Z (Z.of_nat (num_points source)))) |}).
Proof.
  intros keep kept Hvalid Hpos Hindex.
  unfold GetCorrespondencesFromKNNSearch.
  rewrite (check_inputs_valid Hvalid), bind_ret_l,
    (F64_positive_not_le_zero _ Hpos), Hindex.
  simpl. unfold fill_result.
  destruct (knn_correspondences_spec target_nns (pc_points source)
              max_correspondence_distance) as (-> & -> & ->).
  unfold GetShape0, num_points. rewrite !length_map. reflexivity.
Qed.

(** An index that cannot be built is fatal as soon as a cutoff that is not
    [<= 0] asks for a search: both public functions construct the index
    object, transform the source, enter the evaluation, try to build the
    index and end with the error text of lines 122-126, "[Tensor:
    EvaluateRegistration: GetRegistrationResultAndCorrespondences:
    NearestNeighborSearch::HybridSearch] Index is not set.", its four
    literals joined; nothing is searched and the
    estimator is not called. *)
Theorem unbuilt_index_is_fatal (source target : PointCloud Point)
    (max_correspondence_distance : F64.t) (transformation : Tensor Mat)
    (estimation : TransformationEstimation Point Mat)
    (criteria : ICPConvergenceCriteria) :
  valid_inputs source target transformation ->
  F64.leb max_correspondence_distance F64.zero = false ->
  hybrid_index (NearestNeighborSearch_new (pc_points target)) = false ->
  EvaluateRegistration source target max_correspondence_distance
    transformation =
  ([EvNearestNeighborSearch (pc_points target); EvTransform transformation;
    EvEvaluate (Transform transformation source) transformation;
    EvHybridIndex false],
   Fatal
     "[Tensor: EvaluateRegistration: GetRegistrationResultAndCorrespondences: NearestNeighborSearch::HybridSearch] Index is not set.") /\
  RegistrationICP source target max_correspondence_distance transformation
    estimation criteria =
  ([EvNearestNeighborSearch (pc_points target); EvTransform transformation;
    EvEvaluate (Transform transformation source) transformation;
    EvHybridIndex false],
   Fatal
     "[Tensor: EvaluateRegistration: GetRegistrationResultAndCorrespondences: NearestNeighborSearch::HybridSearch] Index is not set.").
Proof.
  intros Hvalid Hle Hindex.
  rewrite (EvaluateRegistration_valid _ Hvalid),
    (RegistrationICP_valid _ _ _ Hvalid),
    (evaluation_valid _ _ (valid_inputs_Transform transformation Hvalid)),
    Hle, Hindex.
  split; reflexivity.
Qed.

(** Without iterations a registration is an evaluation: on accepted inputs
    and with [max_iteration_ <= 0], negative values included,
    [RegistrationICP] does and returns what [EvaluateRegistration] does and
    returns for the initial transformation, whatever the estimator. *)
Theorem icp_without_iterations_is_evaluation
    (source target : PointCloud Point)
    (max_correspondence_distance : F64.t) (init : Tensor Mat)
    (estimation : TransformationEstimation Point Mat)
    (criteria : ICPConvergenceCriteria) :
  valid_inputs source target init ->
  (max_iteration_ criteria <= 0)%Z ->
  RegistrationICP source target max_correspondence_distance init estimation
    criteria =
  EvaluateRegistration source target max_correspondence_distance init.
Proof.
  intros Hvalid Hmax.
  rewrite (EvaluateRegistration_valid _ Hvalid),
    (RegistrationICP_valid _ _ _ Hvalid).
  replace (Z.to_nat (max_iteration_ criteria)) with 0
    by (destruct (max_iteration_ criteria); simpl; lia).
  simpl.
  rewrite <- (bind_ret_r
                (GetRegistrationResultAndCorrespondences
                   (Transform init source) target
                   (NearestNeighborSearch_new (pc_points target))
                   max_correspondence_distance init)) at 2.
  reflexivity.
Qed.

(** When [EvaluateRegistration] returns: exactly on inputs the checks
    accept and with either a cutoff [<= 0] or an index that is built.  What
    it returns carries the given transformation, and was computed on the
    source transformed once with it. *)
Theorem evaluation_succeeds_iff (source target : PointCloud Point)
    (max_correspondence_distance : F64.t) (transformation : Tensor Mat) :
  let run := EvaluateRegistration source target max_correspondence_distance
               transformation in
  ((exists r, outcome run = Ok r) <->
   valid_inputs source target transformation /\
   (F64.leb max_correspondence_distance F64.zero = true \/
    hybrid_index (NearestNeighborSearch_new (pc_points target)) = true)) /\
  forall r, outcome run = Ok r ->
    transformation_ r = transformation /\
    transforms (trace run) = [transformation] /\
    evaluations (trace run)
      = [(Transform transformation source, transformation)].
Proof.
  cbv zeta.
  destruct (valid_inputs_dec source target transformation) as [Hvalid|Hbad].
  - rewrite (EvaluateRegistration_valid _ Hvalid).
    rewrite (evaluation_valid _ _
               (valid_inputs_Transform transformation Hvalid)).
    destruct (F64.leb max_correspondence_distance F64.zero).
    + simpl. split.
      * split; [intros _; auto|intros _; eauto].
      * intros r Hr. injection Hr as <-. repeat split.
    + destruct (hybrid_index _); simpl.
      * split; [split; [intros _; auto|intros _; eauto]|].
        intros r Hr. injection Hr as <-. repeat split.
      * split; [|intros r Hr; discriminate].
        split; [intros [r Hr]; discriminate|].
        intros [_ [Hc|Hc]]; discriminate.
  - unfold EvaluateRegistration.
    destruct (check_inputs_invalid Hbad) as [msg ->].
    simpl. split; [|intros r Hr; discriminate].
    split; [intros [r Hr]; discriminate|intros [Hv _]; contradiction].
Qed.

End Public.

(* ================================================================= *)
(** ** Degenerate and malformed iterations *)

Section Degenerate.
Context {Point Mat : Type} `{RT : Runtime Point Mat}.

Local Abbreviation Ev := (Event Point Mat).

Lemma valid_inputs_after_Transform (t : Tensor Mat)
    (source target : PointCloud Point) (transformation : Tensor Mat) :
  valid_inputs (Transform t source) target transformation <->
  valid_inputs source target transformation.
Proof. unfold valid_inputs, Transform. simpl. tauto. Qed.

(** A registration with a cutoff [<= 0] still iterates: the estimator is
    called with an empty mask and no target index.  When it returns an
    update whose product with the initial transformation passes the checks,
    and both thresholds are greater than 0, the second degenerate result
    equals the first in fitness and rmse, the loop stops after this one
    update, and the registration returns the degenerate result for the
    product. *)
Theorem degenerate_cutoff_iterates_once (source target : PointCloud Point)
    (max_correspondence_distance : F64.t) (init : Tensor Mat)
    (estimation : TransformationEstimation Point Mat)
    (criteria : ICPConvergenceCriteria) (u : Tensor Mat) :
  let run := RegistrationICP source target max_correspondence_distance init
               estimation criteria in
  valid_inputs source target init ->
  F64.leb max_correspondence_distance F64.zero = true ->
  (0 < max_iteration_ criteria)%Z ->
  ComputeTransformation estimation (Transform init source) target ([], [])
    = Ok u ->
  valid_inputs source target (Matmul u init) ->
  F64.ltb F64.zero (relative_fitness_ criteria) = true ->
  F64.ltb F64.zero (relative_rmse_ criteria) = true ->
  outcome run = Ok (RegistrationResult_new (Matmul u init)) /\
  estimator_inputs (trace run) = [(Transform init source, ([], []))] /\
  transforms (trace run) = [init; u] /\
  filter is_search (trace run) = [].
Proof.
  intros run Hvalid Hle Hmax Hcall Hproduct Hfitness Hrmse. subst run.
  assert (Hconv : converged criteria (RegistrationResult_new init)
                    (RegistrationResult_new (Matmul u init)) = true).
  { unfold converged, fitness_delta_below, rmse_delta_below. simpl.
    change (S754_zero false) with F64.zero.
    rewrite Hfitness, Hrmse. reflexivity. }
  rewrite (RegistrationICP_outcome _ _ _ Hvalid),
    (RegistrationICP_trace _ _ _ Hvalid).
  cbv zeta.
  rewrite (evaluation_valid _ _ (valid_inputs_Transform init Hvalid)), Hle.
  destruct (Z.to_nat (max_iteration_ criteria)) as [|todo] eqn:Htodo; [lia|].
  cbn [outcome trace fst snd correspondence_select_bool_ correspondence_set_
       RegistrationResult_new].
  rewrite icp_loop_S_outcome, icp_loop_S_trace, Hcall.
  rewrite (evaluation_valid _ _
             (valid_inputs_Transform u
                (valid_inputs_Transform init Hproduct))), Hle.
  cbn [outcome trace fst snd]. rewrite Hconv. simpl. repeat split.
Qed.

(** The checks at the entry of every evaluation guard the loop: when the
    product of the first update with the initial transformation is not a
    4 x 4 [Float32] tensor on the device of the source, the registration
    ends in a fatal error at the second evaluation, after the working cloud
    has been transformed with the update and before any search. *)
Theorem malformed_update_is_fatal (source target : PointCloud Point)
    (max_correspondence_distance : F64.t) (init : Tensor Mat)
    (estimation : TransformationEstimation Point Mat)
    (criteria : ICPConvergenceCriteria) (r0 : RegistrationResult Mat)
    (u : Tensor Mat) :
  let nns := NearestNeighborSearch_new (pc_points target) in
  let run := RegistrationICP source target max_correspondence_distance init
               estimation criteria in
  valid_inputs source target init ->
  outcome (GetRegistrationResultAndCorrespondences (Transform init source)
             target nns max_correspondence_distance init) = Ok r0 ->
  (0 < max_iteration_ criteria)%Z ->
  ComputeTransformation estimation (Transform init source) target
    (correspondence_select_bool_ r0, correspondence_set_ r0) = Ok u ->
  ~ valid_inputs source target (Matmul u init) ->
  (exists msg, outcome run = Fatal msg) /\
  transforms (trace run) = [init; u] /\
  evaluations (trace run) =
    [(Transform init source, init);
     (Transform u (Transform init source), Matmul u init)] /\
  results (trace run) = [r0] /\
  estimator_calls (trace run) = 1 /\
  List.length (searches (trace run)) <= 1.
Proof.
  intros nns run Hvalid Hfirst Hmax Hcall Hbad. subst run nns.
  assert (Hbad' : ~ valid_inputs (Transform u (Transform init source)) target
                      (Matmul u init)).
  { rewrite !valid_inputs_after_Transform. assumption. }
  destruct (evaluation_invalid (NearestNeighborSearch_new (pc_points target))
              max_correspondence_distance Hbad') as [msg Hsecond].
  rewrite (RegistrationICP_outcome _ _ _ Hvalid),
    (RegistrationICP_trace _ _ _ Hvalid).
  cbv zeta. rewrite Hfirst.
  destruct (Z.to_nat (max_iteration_ criteria)) as [|todo] eqn:Htodo; [lia|].
  rewrite icp_loop_S_outcome, icp_loop_S_trace, Hcall, Hsecond.
  pose proof (evaluation_index_use (Transform init source) target
                (NearestNeighborSearch_new (pc_points target))
                max_correspondence_distance init Hfirst) as Huse.
  cbv zeta in Huse. destruct Huse as (_ & _ & Hsearch & _).
  destruct (evaluation_trace (Transform init source) target
              (NearestNeighborSearch_new (pc_points target))
              max_correspondence_distance init)
    as (l & Htrace & Hcalls & _ & Htrans & Hevals & Hout).
  rewrite Hfirst in Hout. destruct Hout as [Hres _].
  rewrite Htrace in Hsearch |- *. simpl in Hsearch |- *.
  rewrite transforms_app, evaluations_app, results_app, estimator_calls_app,
    searches_app, Htrans, Hevals, Hres, Hcalls, Hsearch.
  simpl. split; [eauto|]. repeat split.
  destruct (F64.leb _ _); simpl; lia.
Qed.

End Degenerate.

(* ================================================================= *)
(** * More runs on the line *)

Module LineMore.
Import Line.

Lemma inputs_valid (points : list Z) (a b : Z) :
  valid_inputs (cloud points) target (affine a b).
Proof. repeat split. Qed.

(** Two results with equal metrics pass the test against thresholds of
    1/2. *)
Lemma converged_needs_positive_thresholds_witness :
  converged (criteria 3) (RegistrationResult_new identity)
    (RegistrationResult_new (affine 1 3)) = true /\
  F64.ltb F64.zero (relative_fitness_ (criteria 3)) = true /\
  F64.ltb F64.zero (relative_rmse_ (criteria 3)) = true.
Proof.
  split; [reflexivity|].
  destruct (converged_needs_positive_thresholds (criteria 3)
              (RegistrationResult_new identity)
              (RegistrationResult_new (affine 1 3)) eq_refl)
    as (Hf & Hr & _).
  split; assumption.
Defined.

(** The estimator that aligns at once: with thresholds of 1/2 the loop
    stops after 2 updates, with thresholds of 0 it makes all 3. *)
Lemma no_early_stop_without_positive_thresholds_witness :
  estimator_calls
    (trace (RegistrationICP (cloud [0; 10]%Z) target cutoff identity
              first_pair (criteria 3))) = 2 /\
  estimator_calls
    (trace (RegistrationICP (cloud [0; 10]%Z) target cutoff identity
              first_pair (strict_criteria 3))) = 3.
Proof.
  split; [vm_compute; reflexivity|].
  destruct (outcome (RegistrationICP (cloud [0; 10]%Z) target cutoff identity
                       first_pair (strict_criteria 3))) as [r|msg] eqn:Hout;
    [|vm_compute in Hout; discriminate].
  apply (no_early_stop_without_positive_thresholds
           (cloud [0; 10]%Z) target cutoff identity first_pair
           (strict_criteria 3) (or_introl eq_refl) Hout).
Defined.

(** Two updates: three evaluations, three calls of [HybridIndex()], three
    searches with the radius 25, one index object. *)
Lemma index_is_built_for_every_evaluation_witness :
  let run := RegistrationICP (cloud [0; 10]%Z) target cutoff identity
               first_pair (criteria 5) in
  constructions (trace run) = 1 /\
  index_builds (trace run) = 3 /\
  searches (trace run) =
    [([0; 10]%Z, F64.of_Z 25); ([3; 13]%Z, F64.of_Z 25);
     ([3; 13]%Z, F64.of_Z 25)].
Proof.
  intros run.
  destruct (outcome run) as [r|msg] eqn:Hout;
    [|vm_compute in Hout; discriminate].
  destruct (index_is_built_for_every_evaluation (cloud [0; 10]%Z) target
              cutoff identity first_pair (criteria 5) Hout)
    as (Hc & _ & Hs & Hb).
  fold run in Hc, Hs, Hb.
  assert (Hsearches : searches (trace run) =
            [([0; 10]%Z, F64.of_Z 25); ([3; 13]%Z, F64.of_Z 25);
             ([3; 13]%Z, F64.of_Z 25)]).
  { rewrite Hs. vm_compute. reflexivity. }
  rewrite Hsearches in Hb. repeat split; assumption.
Defined.

(** The second call of the estimator gets the cloud and the
    correspondences of the second evaluation. *)
Lemma estimator_gets_latest_correspondences_witness :
  let run := RegistrationICP (cloud [0; 10]%Z) target cutoff identity
               first_pair (criteria 5) in
  nth_error (estimator_inputs (trace run)) 1
    = Some (cloud [3; 13]%Z, ([true; true], [0; 1]%Z)) /\
  exists cumulative r,
    nth_error (evaluations (trace run)) 1
      = Some (cloud [3; 13]%Z, cumulative) /\
    nth_error (results (trace run)) 1 = Some r /\
    ([true; true], [0; 1]%Z)
      = (correspondence_select_bool_ r, correspondence_set_ r).
Proof.
  intros run.
  assert (Hcall : nth_error (estimator_inputs (trace run)) 1
                  = Some (cloud [3; 13]%Z, ([true; true], [0; 1]%Z)))
    by (vm_compute; reflexivity).
  split; [exact Hcall|].
  apply (estimator_gets_latest_correspondences (cloud [0; 10]%Z) target
           cutoff identity first_pair (criteria 5) 1 Hcall).
Defined.

(** Two updates, two debug lines: the second has the number 1 and the
    metrics of the second result. *)
Lemma debug_lines_report_previous_result_witness :
  let run := RegistrationICP (cloud [0; 10]%Z) target cutoff identity
               first_pair (criteria 5) in
  List.length (debug_lines (trace run)) = 2 /\
  exists fitness rmse r,
    nth_error (debug_lines (trace run)) 1 = Some (1%Z, fitness, rmse) /\
    nth_error (results (trace run)) 1 = Some r /\
    fitness = fitness_ r /\ rmse = inlier_rmse_ r.
Proof.
  intros run.
  destruct (debug_lines_report_previous_result (cloud [0; 10]%Z) target
              cutoff identity first_pair (criteria 5)) as [Hlen Hline].
  fold run in Hlen, Hline.
  split; [rewrite Hlen; vm_compute; reflexivity|].
  destruct (nth_error (debug_lines (trace run)) 1) as [[[i fitness] rmse]|]
    eqn:Hnth; [|vm_compute in Hnth; discriminate].
  destruct (Hline 1 i fitness rmse Hnth) as (-> & r & Hr & Hf & Hm).
  exists fitness, rmse, r. repeat split; assumption.
Defined.

Lemma returned_result_belongs_to_returned_transformation_witness :
  let run := RegistrationICP (cloud [0; 10]%Z) target cutoff identity
               first_pair (criteria 5) in
  exists r working,
    outcome run = Ok r /\
    transformation_ r = affine 1 3 /\
    working = cloud [3; 13]%Z /\
    outcome (GetRegistrationResultAndCorrespondences working target
               (index [3; 13]%Z) cutoff (transformation_ r)) = Ok r.
Proof.
  intros run.
  destruct (outcome run) as [r|msg] eqn:Hout;
    [|vm_compute in Hout; discriminate].
  destruct (returned_result_belongs_to_returned_transformation
              (cloud [0; 10]%Z) target cutoff identity first_pair
              (criteria 5) Hout) as (working & Hnth & Heval).
  fold run in Hnth.
  exists r, working. split; [reflexivity|].
  assert (Hr : transformation_ r = affine 1 3)
    by (vm_compute in Hout; injection Hout as <-; reflexivity).
  split; [exact Hr|]. split; [|exact Heval].
  vm_compute in Hnth. injection Hnth as <- _. reflexivity.
Defined.

(** The estimator that throws: the registration ends with its message
    after one evaluation and one call. *)
Lemma estimator_failure_ends_the_run_witness :
  let run := RegistrationICP (cloud [0; 10]%Z) target cutoff identity
               failing (criteria 5) in
  In "InsufficientCorrespondence"%string (failed_calls (trace run)) /\
  outcome run = Fatal "InsufficientCorrespondence" /\
  estimator_calls (trace run) = 1.
Proof.
  intros run.
  assert (Hin : In "InsufficientCorrespondence"%string
                  (failed_calls (trace run)))
    by (vm_compute; left; reflexivity).
  split; [exact Hin|].
  destruct (estimator_failure_ends_the_run (cloud [0; 10]%Z) target cutoff
              identity failing (criteria 5) _ Hin) as (Hout & _ & _).
  split; [exact Hout|reflexivity].
Defined.

(** On the line the exact-nearest search keeps the two source points at
    the distance 3: its rmse is the square root of (3 + 3) / 2, not the 3
    the radius search gives. *)
Lemma knn_search_result_witness :
  exists r,
    GetCorrespondencesFromKNNSearch source target (index [3; 13]%Z) cutoff
      identity = ([EvKnnIndex true; EvKnnSearch [0; 10; 100]%Z], Ok r) /\
    correspondence_select_bool_ r = [true; true; false] /\
    inlier_rmse_ r = F64.of_F32 (F32.sqrt (F32.of_Z 3)) /\
    inlier_rmse_ r <> F64.of_Z 3.
Proof.
  eexists. split.
  - apply (knn_search_result (source := source) (target := target)
             (index [3; 13]%Z) cutoff (transformation := identity)).
    + apply inputs_valid.
    + reflexivity.
    + reflexivity.
  - split; [reflexivity|]. split; [reflexivity|]. vm_compute. discriminate.
Defined.

Lemma unbuilt_index_is_fatal_witness :
  outcome (@EvaluateRegistration _ _ runtime_without_index source target
             cutoff identity)
  = Fatal
      "[Tensor: EvaluateRegistration: GetRegistrationResultAndCorrespondences: NearestNeighborSearch::HybridSearch] Index is not set." /\
  outcome (@RegistrationICP _ _ runtime_without_index source target cutoff
             identity first_pair (criteria 5))
  = Fatal
      "[Tensor: EvaluateRegistration: GetRegistrationResultAndCorrespondences: NearestNeighborSearch::HybridSearch] Index is not set.".
Proof.
  destruct (@unbuilt_index_is_fatal _ _ runtime_without_index source target
              cutoff identity first_pair (criteria 5))
    as [Hevaluate Hicp].
  - apply inputs_valid.
  - reflexivity.
  - reflexivity.
  - rewrite Hevaluate, Hicp. split; reflexivity.
Defined.

(** A negative number of iterations: the registration is the evaluation. *)
Lemma icp_without_iterations_is_evaluation_witness :
  RegistrationICP source target cutoff (affine 1 3) failing (criteria (-2)) =
  EvaluateRegistration source target cutoff (affine 1 3).
Proof.
  apply icp_without_iterations_is_evaluation.
  - apply inputs_valid.
  - discriminate.
Defined.

(** The cutoff 0 and the estimator that moves one step: one call with no
    correspondence, then the loop stops on two equal degenerate results. *)
Lemma degenerate_cutoff_iterates_once_witness :
  let run := RegistrationICP source target F64.zero identity one_step
               (criteria 5) in
  outcome run = Ok (RegistrationResult_new (affine 1 1)) /\
  estimator_inputs (trace run) = [(source, ([], []))] /\
  transforms (trace run) = [identity; affine 1 1] /\
  filter is_search (trace run) = [].
Proof.
  apply (@degenerate_cutoff_iterates_once Z (Z * Z) runtime source target
           F64.zero identity one_step (criteria 5) (affine 1 1)).
  - apply inputs_valid.
  - reflexivity.
  - reflexivity.
  - reflexivity.
  - repeat split.
  - reflexivity.
  - reflexivity.
Defined.

(** The estimator that returns a [Float64] update: the second evaluation
    refuses the product. *)
Lemma malformed_update_is_fatal_witness :
  let run := RegistrationICP source target cutoff identity wrong_precision
               (criteria 5) in
  (exists msg, outcome run = Fatal msg) /\
  transforms (trace run) = [identity; identity64] /\
  List.length (evaluations (trace run)) = 2 /\
  List.length (results (trace run)) = 1 /\
  estimator_calls (trace run) = 1.
Proof.
  intros run.
  destruct (outcome (GetRegistrationResultAndCorrespondences
                       (Transform identity source) target
                       (NearestNeighborSearch_new (pc_points target)) cutoff
                       identity)) as [r0|msg] eqn:Hfirst;
    [|vm_compute in Hfirst; discriminate].
  destruct (@malformed_update_is_fatal Z (Z * Z) runtime source target cutoff
              identity wrong_precision (criteria 5) r0 identity64)
    as (Hfatal & Htransforms & Hevals & Hresults & Hcalls & _).
  - apply inputs_valid.
  - exact Hfirst.
  - reflexivity.
  - reflexivity.
  - intros (_ & _ & _ & _ & _ & Hdtype). discriminate.
  - fold run in Hfatal, Htransforms, Hevals, Hresults, Hcalls.
    rewrite Hevals, Hresults. repeat split; assumption.
Defined.

End LineMore.

(* ================================================================= *)
(** * How many updates a registration makes *)

Lemma loop_results_early {Mat}
    (test : RegistrationResult Mat -> RegistrationResult Mat -> bool) :
  forall todo previous rs,
    loop_results test todo previous rs ->
    (0 < todo -> 0 < List.length rs) /\
    (List.length rs < todo ->
     exists j a b,
       S j = List.length rs /\
       nth_error (previous :: rs) j = Some a /\
       nth_error (previous :: rs) (S j) = Some b /\
       test a b = true).
Proof.
  induction todo as [|todo IH]; intros previous [|current rs] Hloop;
    simpl in Hloop; try contradiction.
  - split; intros Hlt; simpl in Hlt; lia.
  - destruct (test previous current) eqn:Htest.
    + subst rs. split; [simpl; lia|]. intros _.
      exists 0, previous, current. repeat split; assumption.
    + destruct (IH current rs Hloop) as [_ IHearly].
      split; [simpl; lia|]. intros Hlt.
      destruct IHearly as (j & a & b & Hj & Ha & Hb & Hab);
        [simpl in Hlt; lia|].
      exists (S j), a, b. simpl. repeat split; auto.
Qed.

Section Stops.
Context {Point Mat : Type} `{RT : Runtime Point Mat}.

Local Abbreviation Ev := (Event Point Mat).

(** A loop that ends in a fatal error was ended by the estimator, whose
    message it carries, or by an evaluation that did not return. *)
Lemma icp_loop_fatal (estimation : TransformationEstimation Point Mat)
    (criteria : ICPConvergenceCriteria) (target : PointCloud Point)
    (target_nns : NearestNeighborSearch Point F32.t F64.t)
    (max_correspondence_distance : F64.t) (msg : string) :
  forall todo i transformation working result corres,
    let run := icp_loop estimation criteria target target_nns
                 max_correspondence_distance todo i transformation working
                 result corres in
    outcome run = Fatal msg ->
    In msg (failed_calls (trace run)) \/
    List.length (evaluations (trace run))
      = S (List.length (results (trace run))).
Proof.
  induction todo as [|todo IH]; intros i transformation working result corres;
    cbv zeta.
  - discriminate.
  - rewrite icp_loop_S_trace, icp_loop_S_outcome.
    destruct (ComputeTransformation estimation working target corres)
      as [u|msg'].
    + pose proof (evaluation_quiet (Transform u working) target target_nns
                    max_correspondence_distance (Matmul u transformation))
        as Hquiet.
      cbv zeta in Hquiet.
      destruct Hquiet as (_ & _ & Hfailed & _ & Hevals & Hresults & _).
      simpl.
      rewrite failed_calls_app, evaluations_app, results_app, !length_app,
        Hfailed, Hevals, Hresults.
      destruct (outcome (GetRegistrationResultAndCorrespondences
                           (Transform u working) target target_nns
                           max_correspondence_distance
                           (Matmul u transformation))) as [current|msg''].
      * destruct (converged criteria result current); [discriminate|].
        intros Hout. destruct (IH _ _ _ _ _ Hout) as [Hin|Hlen].
        -- left. assumption.
        -- right. simpl. rewrite Hlen. reflexivity.
      * intros _. right. reflexivity.
    + intros Hout. injection Hout as ->. left. simpl. left. reflexivity.
Qed.

(** C1: a run of [RegistrationICP] with [max_iteration_ = n] calls the
    estimator at most [n] times (no time when [n] is negative).  A run that
    returns has gone through the results [rs] of the initial evaluation and
    of one evaluation per update, and returns the last one.  After an
    update that is not the [n]-th, the loop stops exactly when the fitness
    delta and the rmse delta are both below their thresholds: with only one
    of them below, a further update follows.  The loop is entered whenever
    [n] is positive, and a run that returns after fewer than [n] updates
    has made at least one, after which both deltas were below their
    thresholds.  A run that does not return was ended by inputs the checks
    refuse, by the exception of the estimator, or by an evaluation that did
    not return. *)
Theorem icp_stops_on_both_deltas (source target : PointCloud Point)
    (max_correspondence_distance : F64.t) (init : Tensor Mat)
    (estimation : TransformationEstimation Point Mat)
    (criteria : ICPConvergenceCriteria) :
  let run := RegistrationICP source target max_correspondence_distance init
               estimation criteria in
  let n := Z.to_nat (max_iteration_ criteria) in
  let k := estimator_calls (trace run) in
  let rs := results (trace run) in
  k <= n /\
  match outcome run with
  | Fatal msg =>
      ~ valid_inputs source target init \/
      In msg (failed_calls (trace run)) \/
      List.length (evaluations (trace run)) = S (List.length rs)
  | Ok r =>
      List.length rs = S k /\
      nth_error rs k = Some r /\
      (forall j previous current,
         nth_error rs j = Some previous ->
         nth_error rs (S j) = Some current ->
         S j < n ->
         (S j = k <->
          fitness_delta_below criteria previous current = true /\
          rmse_delta_below criteria previous current = true) /\
         (fitness_delta_below criteria previous current = true ->
          rmse_delta_below criteria previous current = false -> S j < k) /\
         (fitness_delta_below criteria previous current = false ->
          rmse_delta_below criteria previous current = true -> S j < k)) /\
      (0 < n -> 0 < k) /\
      (k < n ->
       exists j previous,
         k = S j /\
         nth_error rs j = Some previous /\
         fitness_delta_below criteria previous r = true /\
         rmse_delta_below criteria previous r = true)
  end.
Proof.
  cbv zeta.
  destruct (valid_inputs_dec source target init) as [Hvalid|Hbad].
  - destruct (RegistrationICP_spec max_correspondence_distance estimation
                criteria Hvalid) as [Hcalls Hok].
    split; [assumption|].
    destruct (outcome (RegistrationICP source target
                         max_correspondence_distance init estimation
                         criteria)) as [r|msg] eqn:Hrun.
    + destruct (Hok r eq_refl)
        as (_ & _ & _ & _ & r0 & rs & Hrs & Hlen & Hlast & Hloop).
      rewrite Hrs, <- Hlen.
      destruct (loop_results_nth _ _ _ _ Hloop) as [_ Hnth].
      destruct (loop_results_early _ _ _ _ Hloop) as [Hentered Hearly].
      assert (Hreturned : nth_error (r0 :: rs) (List.length rs) = Some r)
        by (rewrite nth_error_last; congruence).
      split; [reflexivity|]. split; [exact Hreturned|].
      split; [|split; [exact Hentered|]].
      * intros j previous current Hj HSj Hn.
        specialize (Hnth j previous current Hj HSj).
        assert (Hlt : S j <= List.length rs).
        { apply Nat.lt_succ_r.
          change (S (List.length rs)) with (List.length (r0 :: rs)).
          apply nth_error_Some. rewrite HSj. discriminate. }
        unfold converged in Hnth. rewrite andb_true_iff in Hnth.
        split; [|split].
        -- rewrite Hnth.
           split; [intros [Hboth|Hlast']; [assumption|lia]|auto].
        -- intros Hf Hr.
           destruct (Nat.eq_dec (S j) (List.length rs)) as [Heq|Hne]; [|lia].
           apply Hnth in Heq.
           destruct Heq as [[_ Hr']|Hlast']; [congruence|lia].
        -- intros Hf Hr.
           destruct (Nat.eq_dec (S j) (List.length rs)) as [Heq|Hne]; [|lia].
           apply Hnth in Heq.
           destruct Heq as [[Hf' _]|Hlast']; [congruence|lia].
      * intros Hlt.
        destruct (Hearly Hlt) as (j & a & b & Hj & Ha & Hb & Hab).
        rewrite Hj, Hreturned in Hb. injection Hb as <-.
        unfold converged in Hab. rewrite andb_true_iff in Hab.
        exists j, a. repeat split; auto; apply Hab.
    + right.
      rewrite (RegistrationICP_outcome _ _ _ Hvalid) in Hrun.
      rewrite (RegistrationICP_trace _ _ _ Hvalid).
      cbv zeta in Hrun |- *. simpl.
      pose proof (evaluation_quiet (Transform init source) target
                    (NearestNeighborSearch_new (pc_points target))
                    max_correspondence_distance init) as Hquiet.
      cbv zeta in Hquiet.
      destruct Hquiet as (_ & _ & Hfailed & _ & Hevals & Hresults & _).
      rewrite failed_calls_app, evaluations_app, results_app, !length_app,
        Hfailed, Hevals, Hresults.
      destruct (outcome (GetRegistrationResultAndCorrespondences
                           (Transform init source) target
                           (NearestNeighborSearch_new (pc_points target))
                           max_correspondence_distance init)) as [r0|msg'].
      * apply icp_loop_fatal in Hrun. destruct Hrun as [Hin|Hlen].
        -- left. assumption.
        -- right. simpl. rewrite Hlen. reflexivity.
      * right. reflexivity.
  - destruct (invalid_inputs_fatal max_correspondence_distance estimation
                criteria Hbad) as [_ [msg ->]].
    simpl. split; [lia|]. left. assumption.
Qed.

End Stops.

Module LineStops.
Import Line.

(** Two runs on the line.  With the estimator that moves one step the loop
    goes on while only the fitness delta is below its threshold: every
    source point stays matched, the rmse falls from 3 to 2, and a second
    update follows.  With the estimator that aligns at once the run returns
    after 2 of its 5 iterations, and both deltas of its last update are
    below their thresholds. *)
Lemma icp_stops_on_both_deltas_witness :
  let run := RegistrationICP (cloud [0; 10]%Z) target cutoff identity
               one_step (criteria 3) in
  let run' := RegistrationICP (cloud [0; 10]%Z) target cutoff identity
                first_pair (criteria 5) in
  (exists previous current,
     nth_error (results (trace run)) 0 = Some previous /\
     nth_error (results (trace run)) 1 = Some current /\
     fitness_delta_below (criteria 3) previous current = true /\
     rmse_delta_below (criteria 3) previous current = false /\
     1 < estimator_calls (trace run) <= 3) /\
  (exists previous r,
     outcome run' = Ok r /\
     estimator_calls (trace run') = 2 /\
     nth_error (results (trace run')) 1 = Some previous /\
     fitness_delta_below (criteria 5) previous r = true /\
     rmse_delta_below (criteria 5) previous r = true).
Proof.
  intros run run'. split.
  - pose proof (icp_stops_on_both_deltas (cloud [0; 10]%Z) target cutoff
                  identity one_step (criteria 3)) as Hrun.
    cbv zeta in Hrun. fold run in Hrun. destruct Hrun as [Hbound Hrun].
    destruct (outcome run) as [r|msg] eqn:Hout;
      [|vm_compute in Hout; discriminate].
    destruct Hrun as (_ & _ & Hstep & _).
    destruct (nth_error (results (trace run)) 0) as [previous|] eqn:H0;
      [|vm_compute in H0; discriminate].
    destruct (nth_error (results (trace run)) 1) as [current|] eqn:H1;
      [|vm_compute in H1; discriminate].
    exists previous, current.
    assert (Hf : fitness_delta_below (criteria 3) previous current = true).
    { vm_compute in H0, H1. injection H0 as <-. injection H1 as <-.
      vm_compute. reflexivity. }
    assert (Hr : rmse_delta_below (criteria 3) previous current = false).
    { vm_compute in H0, H1. injection H0 as <-. injection H1 as <-.
      vm_compute. reflexivity. }
    repeat split; auto.
    destruct (Hstep 0 previous current H0 H1) as (_ & Hcontinue & _).
    + vm_compute. lia.
    + apply Hcontinue; assumption.
  - pose proof (icp_stops_on_both_deltas (cloud [0; 10]%Z) target cutoff
                  identity first_pair (criteria 5)) as Hrun.
    cbv zeta in Hrun. fold run' in Hrun. destruct Hrun as [_ Hrun].
    destruct (outcome run') as [r|msg] eqn:Hout;
      [|vm_compute in Hout; discriminate].
    destruct Hrun as (_ & _ & _ & _ & Hearly).
    assert (Hcalls : estimator_calls (trace run') = 2)
      by (vm_compute; reflexivity).
    rewrite Hcalls in Hearly.
    destruct Hearly as (j & previous & Hj & Hprevious & Hf & Hr);
      [vm_compute; lia|].
    injection Hj as <-.
    exists previous, r. repeat split; assumption.
Defined.

End LineStops.
